(** * VoltaSense attendance dashboard: shallow embedding of [dashhboard.py]

    The dashboard is a Streamlit script with three pieces of logic:
    - the MQTT callbacks [on_connect], [on_disconnect], [on_message] and the
      idempotent [setup_mqtt], all acting on [st.session_state], the
      callbacks from the client's network thread;
    - [load_attendance_csv], which reads [Attendance.csv] through pandas;
    - the view computations of [main]: the history filters, the CSV export and
      the top-5 ranking.

    Python objects are embedded as follows.  [str] is [string] (the model
    covers ASCII text; case folding and whitespace are the ASCII ones).
    Exceptions are the [Raise] outcome of [result].  The calls of [print]
    and the Streamlit widgets have no part in the state and are left out,
    [st.error] of [setup_mqtt] apart.  Library calls whose
    internals are not part of the script (UTF-8 decoding, [json.loads], the
    dtype inference of [pandas.read_csv], the sort of [value_counts]) are
    [Section] variables; the documented behaviour the script relies on is
    written out in definitions next to them. *)

From Stdlib Require Import List String Ascii Bool Arith ZArith Lia.
From Stdlib Require Import Permutation Sorted.
From Stdlib Require Import Numbers.DecimalString.
Import ListNotations.

Local Open Scope string_scope.
Local Open Scope list_scope.
Local Open Scope nat_scope.

(** ** Exceptions *)

Inductive exn : Type :=
| UnicodeDecodeError
| JSONDecodeError
| TypeError
| AttributeError
| ParserError
| OSError.

Inductive result (A : Type) : Type :=
| Ok (a : A)
| Raise (e : exn).
Arguments Ok {A} a.
Arguments Raise {A} e.

Definition bind {A B : Type} (m : result A) (k : A -> result B) : result B :=
  match m with
  | Ok a => k a
  | Raise e => Raise e
  end.

Notation "x <- m ;; k" := (bind m (fun x => k))
  (at level 61, m at next level, right associativity).

(** ** Python strings *)

Module PyStr.

(** [str.isspace] on the ASCII range: TAB, LF, VT, FF, CR, the four
    separators 0x1c-0x1f and the space. *)
Definition is_space (c : ascii) : bool :=
  let n := nat_of_ascii c in
  ((9 <=? n) && (n <=? 13)) || ((28 <=? n) && (n <=? 32)).

Fixpoint lstrip (s : string) : string :=
  match s with
  | EmptyString => EmptyString
  | String c s' => if is_space c then lstrip s' else s
  end.

Fixpoint rstrip (s : string) : string :=
  match s with
  | EmptyString => EmptyString
  | String c s' =>
      match rstrip s' with
      | EmptyString => if is_space c then EmptyString else String c EmptyString
      | r => String c r
      end
  end.

(** [s.strip()] *)
Definition strip (s : string) : string := lstrip (rstrip s).

Definition starts_with_space (s : string) : bool :=
  match s with
  | EmptyString => false
  | String c _ => is_space c
  end.

Fixpoint ends_with_space (s : string) : bool :=
  match s with
  | EmptyString => false
  | String c EmptyString => is_space c
  | String _ s' => ends_with_space s'
  end.

(** A string is trimmed when it has no whitespace at either end. *)
Definition trimmed (s : string) : Prop :=
  starts_with_space s = false /\ ends_with_space s = false.

(** ASCII [str.lower] on one character. *)
Definition lower_char (c : ascii) : ascii :=
  let n := nat_of_ascii c in
  if (65 <=? n) && (n <=? 90) then ascii_of_nat (n + 32) else c.

Fixpoint lower (s : string) : string :=
  match s with
  | EmptyString => EmptyString
  | String c s' => String (lower_char c) (lower s')
  end.

(** [needle in hay] for strings. *)
Definition contains (needle hay : string) : Prop :=
  exists pre post, hay = (pre ++ needle ++ post)%string.

Fixpoint is_prefix (p s : string) : bool :=
  match p, s with
  | EmptyString, _ => true
  | String a p', String b s' => Ascii.eqb a b && is_prefix p' s'
  | String _ _, EmptyString => false
  end.

Fixpoint containsb (needle hay : string) : bool :=
  is_prefix needle hay ||
  match hay with
  | EmptyString => false
  | String _ hay' => containsb needle hay'
  end.

End PyStr.

(** ** [collections.deque] with a [maxlen] *)

Module Deque.

(** The leftmost element is the head of the list. *)
Definition deque (A : Type) : Type := list A.

(** [d.appendleft(x)] on a [deque(maxlen = maxlen)]: the element is put at
    the left end and, when the length then exceeds [maxlen], one element is
    popped from the right end. *)
Definition appendleft {A : Type} (maxlen : nat) (x : A) (d : deque A) : deque A :=
  let d' := x :: d in
  if maxlen <? List.length d' then removelast d' else d'.

(** Iterating over a deque goes left to right. *)
Definition snapshot {A : Type} (d : deque A) : list A := d.

End Deque.

(** ** Wall clock *)

Record datetime : Type := mkDatetime
  { year : nat; month : nat; day : nat; hour : nat; minute : nat; second : nat }.

Definition decimal (n : nat) : string := NilEmpty.string_of_uint (Nat.to_uint n).

Fixpoint zeros (n : nat) : string :=
  match n with
  | O => EmptyString
  | S n' => String "0" (zeros n')
  end.

Definition zero_pad (width n : nat) : string :=
  let s := decimal n in (zeros (width - String.length s) ++ s)%string.

(** [now.strftime('%Y-%m-%d %H:%M:%S')] *)
Definition strftime_ymd_hms (now : datetime) : string :=
  (zero_pad 4 (year now) ++ "-" ++ zero_pad 2 (month now) ++ "-" ++ zero_pad 2 (day now)
   ++ " " ++ zero_pad 2 (hour now) ++ ":" ++ zero_pad 2 (minute now) ++ ":"
   ++ zero_pad 2 (second now))%string.

(** ** Decoded payloads *)

(** The values [json.loads] can return.  A [dict] keeps its keys in
    insertion order. *)
#[warnings="-register-all"] Inductive json : Type :=
| JNull
| JBool (b : bool)
| JInt (n : Z)
| JFloat (repr : string)
| JStr (s : string)
| JList (l : list json)
| JDict (d : list (string * json)).

Fixpoint dict_set (key : string) (v : json) (d : list (string * json)) : list (string * json) :=
  match d with
  | [] => [(key, v)]
  | (k, w) :: d' => if String.eqb k key then (k, v) :: d' else (k, w) :: dict_set key v d'
  end.

Definition dict_has (key : string) (d : list (string * json)) : bool :=
  existsb (fun kv => String.eqb (fst kv) key) d.

(** [key in data]: key lookup on a dict, element search on a list, substring
    test on a str; the other JSON values are not containers. *)
Definition py_in (key : string) (data : json) : result bool :=
  match data with
  | JDict d => Ok (dict_has key d)
  | JList l => Ok (existsb (fun v => match v with JStr s => String.eqb s key | _ => false end) l)
  | JStr s => Ok (PyStr.containsb key s)
  | JNull | JBool _ | JInt _ | JFloat _ => Raise TypeError
  end.

(** [data[key] = v]: only a dict accepts a string key. *)
Definition py_setitem (key : string) (v : json) (data : json) : result json :=
  match data with
  | JDict d => Ok (JDict (dict_set key v d))
  | _ => Raise TypeError
  end.

(** ** MQTT configuration *)

Definition MQTT_BROKER : string := "broker.hivemq.com".
Definition MQTT_PORT : Z := 1883.
Definition MQTT_TOPIC : string := "attendance/student".
Definition MQTT_CLIENT_ID : string := "streamlit_dashboard".

(** Capacity of [st.session_state.mqtt_messages]. *)
Definition MESSAGES_MAXLEN : nat := 50.

(** ** The paho client object, as far as the script touches it *)

Record Client : Type := mkClient
  { client_id : string;
    clean_session : bool;
    callbacks_installed : bool;
    remote : option (string * Z * Z);
    loop_running : bool;
    subscriptions : list string }.

Definition subscribe (topic : string) (c : Client) : Client :=
  mkClient (client_id c) (clean_session c) (callbacks_installed c) (remote c)
           (loop_running c) (subscriptions c ++ [topic]).

Record MQTTMessage : Type := mkMessage
  { topic : string; payload : list Byte.byte }.

(** ** [st.session_state] *)

Record session_state : Type := mkSession
  { mqtt_connected : bool;
    mqtt_messages : Deque.deque json;
    last_update : datetime;
    mqtt_client : option Client }.

(** Lines 27-37: the four keys as the first run of the script sets them. *)
Definition initial_session (now : datetime) : session_state :=
  mkSession false [] now None.

Definition set_connected (b : bool) (st : session_state) : session_state :=
  mkSession b (mqtt_messages st) (last_update st) (mqtt_client st).

Definition set_client (c : option Client) (st : session_state) : session_state :=
  mkSession (mqtt_connected st) (mqtt_messages st) (last_update st) c.

(** The two-valued connection state of the specification. *)
Inductive ConnectionState : Type := Disconnected | Connected.

Definition connection_state (st : session_state) : ConnectionState :=
  if mqtt_connected st then Connected else Disconnected.

(** ** [st.session_state] off the script thread *)

(** The thread a piece of the script runs on.  [main] and [setup_mqtt] run
    on the script thread of the session.  The three callbacks are handed to
    the client (lines 76-78) and called by the thread [loop_start] creates
    (line 81), which has no script run context. *)
Inductive thread : Type := ScriptThread | NetworkThread.

(** [st.session_state.key] read on a thread.  On the script thread it is
    the key of the session.  Without a script run context Streamlit hands
    out a new empty state at each access, in which no key exists: the read
    raises AttributeError. *)
Definition state_read {A : Type} (t : thread) (key : session_state -> A)
           (st : session_state) : result A :=
  match t with
  | ScriptThread => Ok (key st)
  | NetworkThread => Raise AttributeError
  end.

(** [st.session_state.key = v] on a thread.  Without a script run context
    the assignment lands in the empty state of that access and is lost;
    the session is unchanged and nothing is raised. *)
Definition state_write (t : thread) (assign : session_state -> session_state)
           (st : session_state) : session_state :=
  match t with
  | ScriptThread => assign st
  | NetworkThread => st
  end.

Definition set_messages_and_update (buf : Deque.deque json) (now : datetime)
           (st : session_state) : session_state :=
  mkSession (mqtt_connected st) buf now (mqtt_client st).

(** ** MQTT callbacks *)

(** [on_connect(client, userdata, flags, rc)] called on thread [t].  The
    client argument is the object whose network loop runs the callback;
    the new client value is returned next to the session state. *)
Definition on_connect (t : thread) (client : Client) (rc : Z) (st : session_state)
  : Client * session_state :=
  if (rc =? 0)%Z
  then (subscribe MQTT_TOPIC client, state_write t (set_connected true) st)
  else (client, state_write t (set_connected false) st).

(** [on_disconnect(client, userdata, rc)] called on thread [t]. *)
Definition on_disconnect (t : thread) (client : Client) (rc : Z) (st : session_state)
  : Client * session_state :=
  (client, state_write t (set_connected false) st).

Section OnMessage.

(** [bytes.decode()] (UTF-8) and [json.loads]: library functions. *)
Variable decode : list Byte.byte -> result string.
Variable json_loads : string -> result json.

(** Lines 55-60: the value that reaches [appendleft], or the exception
    raised before it. *)
Definition received_event (msg : MQTTMessage) (now : datetime) : result json :=
  text <- decode (payload msg) ;;
  data <- json_loads text ;;
  present <- py_in "received_at" data ;;
  if negb present
  then py_setitem "received_at" (JStr (strftime_ymd_hms now)) data
  else Ok data.

(** Lines 55-63 on thread [t]: the event and the buffer it is pushed on,
    or the exception raised on the way.  Line 63 reads the buffer out of
    [st.session_state] before it pushes. *)
Definition on_message_try (t : thread) (msg : MQTTMessage) (now : datetime)
           (st : session_state) : result (json * Deque.deque json) :=
  data <- received_event msg now ;;
  buf <- state_read t mqtt_messages st ;;
  Ok (data, buf).

(** [on_message(client, userdata, msg)] called on thread [t]: the [try]
    body runs to its end, pushing the event (line 63) and setting
    [last_update] (line 64), or the [except Exception] clause only prints.
    Both readings of the clock in one call are the same [now]. *)
Definition on_message (t : thread) (msg : MQTTMessage) (now : datetime)
           (st : session_state) : session_state :=
  match on_message_try t msg now st with
  | Ok (data, buf) =>
      state_write t
        (set_messages_and_update (Deque.appendleft MESSAGES_MAXLEN data buf) now) st
  | Raise _ => st
  end.

End OnMessage.

(** ** [setup_mqtt] *)

(** What the outside world does to one run of the [try] block: which of the
    three calls that can fail raises, if any. *)
Record setup_env : Type := mkEnv
  { constructor_raises : option exn;
    connect_raises : option exn;
    loop_start_raises : option exn }.

Definition all_succeed : setup_env := mkEnv None None None.

(** The script's state together with a record of what it has done so far:
    how many [mqtt.Client] objects it constructed, how many times it called
    [connect], how many network loops it started, and the messages passed
    to [st.error]. *)
Inductive ui_message : Type :=
| MqttConnectionError (e : exn).

Record World : Type := mkWorld
  { session : session_state;
    clients_created : nat;
    connect_calls : nat;
    loops_started : nat;
    ui_errors : list ui_message }.

Definition initial_world (now : datetime) : World :=
  mkWorld (initial_session now) 0 0 0 [].

Definition with_session (st : session_state) (w : World) : World :=
  mkWorld st (clients_created w) (connect_calls w) (loops_started w) (ui_errors w).

(** The four things the [try] block does to the client object. *)
Definition new_client (id : string) (clean : bool) : Client :=
  mkClient id clean false None false [].

Definition install_callbacks (c : Client) : Client :=
  mkClient (client_id c) (clean_session c) true (remote c) (loop_running c) (subscriptions c).

Definition connect (host : string) (port keepalive : Z) (c : Client) : Client :=
  mkClient (client_id c) (clean_session c) (callbacks_installed c)
           (Some (host, port, keepalive)) (loop_running c) (subscriptions c).

Definition loop_start (c : Client) : Client :=
  mkClient (client_id c) (clean_session c) (callbacks_installed c) (remote c)
           true (subscriptions c).

Definition count_client (w : World) : World :=
  mkWorld (session w) (S (clients_created w)) (connect_calls w) (loops_started w)
          (ui_errors w).

Definition count_connect (w : World) : World :=
  mkWorld (session w) (clients_created w) (S (connect_calls w)) (loops_started w)
          (ui_errors w).

Definition count_loop (w : World) : World :=
  mkWorld (session w) (clients_created w) (connect_calls w) (S (loops_started w))
          (ui_errors w).

(** Lines 75-84, stopped at the first call that raises.  The result is the
    world at that point and the exception, if any. *)
Definition setup_try (env : setup_env) (w : World) : World * option exn :=
  match constructor_raises env with
  | Some e => (w, Some e)
  | None =>
      let client := install_callbacks (new_client MQTT_CLIENT_ID true) in
      let w := count_connect (count_client w) in
      match connect_raises env with
      | Some e => (w, Some e)
      | None =>
          let client := connect MQTT_BROKER MQTT_PORT 60%Z client in
          match loop_start_raises env with
          | Some e => (w, Some e)
          | None =>
              let client := loop_start client in
              let w := count_loop w in
              (with_session (set_client (Some client) (session w)) w, None)
          end
      end
  end.

Definition setup_mqtt (env : setup_env) (w : World) : World :=
  match mqtt_client (session w) with
  | Some _ => w
  | None =>
      match setup_try env w with
      | (w', None) => w'
      | (w', Some e) =>
          mkWorld (set_connected false (session w'))
                  (clients_created w') (connect_calls w') (loops_started w')
                  (ui_errors w' ++ [MqttConnectionError e])
      end
  end.

(** ** One thing happening to the running dashboard *)

Inductive event : Type :=
| Render (env : setup_env)
| ConnAck (rc : Z)
| ConnectionLost (rc : Z)
| Publish (msg : MQTTMessage) (now : datetime).

Section Step.

Variable decode : list Byte.byte -> result string.
Variable json_loads : string -> result json.

(** A callback runs on the network thread of the stored client, so
    without a stored client there is no callback, and what it does to
    [st.session_state] it does without a script run context.  The client
    object is the one the session refers to, so what the callback does to
    it shows in the stored client.  [Render] is the call of [setup_mqtt]
    that opens [main], on the script thread. *)
Definition step (w : World) (ev : event) : World :=
  match ev with
  | Render env => setup_mqtt env w
  | ConnAck rc =>
      match mqtt_client (session w) with
      | Some c =>
          let (c', st') := on_connect NetworkThread c rc (session w) in
          with_session (set_client (Some c') st') w
      | None => w
      end
  | ConnectionLost rc =>
      match mqtt_client (session w) with
      | Some c =>
          let (c', st') := on_disconnect NetworkThread c rc (session w) in
          with_session (set_client (Some c') st') w
      | None => w
      end
  | Publish msg now =>
      match mqtt_client (session w) with
      | Some _ =>
          with_session (on_message decode json_loads NetworkThread msg now (session w)) w
      | None => w
      end
  end.

Definition run (evs : list event) (w : World) : World := fold_left step evs w.

End Step.

(** ** [Attendance.csv] *)

(** A file is the list of its lines and a line the list of its fields, as
    the CSV tokenizer and the CSV writer agree on them (quoting and the
    separator are theirs).  The empty list is a blank line. *)
Definition csv_line : Type := list string.
Definition csv_file : Type := list csv_line.

Definition CSV_COLUMNS : csv_line := ["Name"; "Time"; "Date"].

(** One row of a loaded frame.  A loaded frame has three text columns and
    no missing cell. *)
Record AttendanceRecord : Type := mkRecord
  { Name : string; Time : string; Date : string }.

Definition DataFrame : Type := list AttendanceRecord.

(** A cell as [read_csv] returns it: [None] is NaN. *)
Definition cell : Type := option string.

(** The strings [read_csv] reads as NaN by default. *)
Definition NA_VALUES : list string :=
  [ EmptyString; "#N/A"; "#N/A N/A"; "#NA"; "-1.#IND"; "-1.#QNAN"; "-NaN"; "-nan";
    "1.#IND"; "1.#QNAN"; "<NA>"; "N/A"; "NA"; "NULL"; "NaN"; "None"; "n/a"; "nan"; "null" ].

Definition is_na (tok : string) : bool := existsb (String.eqb tok) NA_VALUES.

Definition parse_cell (tok : string) : cell :=
  if is_na tok then None else Some tok.

(** The dtype of a column: [object] holds text, everything else is
    [converted]. *)
Inductive dtype : Type := object | converted.

Record parsed_frame : Type := mkParsed
  { dtypes : dtype * dtype * dtype;
    rows : list (cell * cell * cell) }.

Definition is_blank (l : csv_line) : bool :=
  match l with
  | [] => true
  | _ :: _ => false
  end.

(** One data line against [names=['Name','Time','Date']]: missing trailing
    fields are NaN; a line of more than three fields is a tokenizing error
    ("Expected 3 fields, saw n").  When the first data line itself is wider
    than three fields pandas takes the surplus leading fields as an index
    instead; such files are not covered. *)
Definition parse_line (l : csv_line) : result (cell * cell * cell) :=
  match l with
  | [a] => Ok (parse_cell a, None, None)
  | [a; b] => Ok (parse_cell a, parse_cell b, None)
  | [a; b; c] => Ok (parse_cell a, parse_cell b, parse_cell c)
  | _ => Raise ParserError
  end.

Fixpoint parse_lines (ls : list csv_line) : result (list (cell * cell * cell)) :=
  match ls with
  | [] => Ok []
  | l :: ls' =>
      r <- parse_line l ;;
      rs <- parse_lines ls' ;;
      Ok (r :: rs)
  end.

Definition present (col : list cell) : list string :=
  flat_map (fun c => match c with Some s => [s] | None => [] end) col.

(** [df.dropna()]: the rows without a NaN, in order.  They are complete, so
    they are returned as records. *)
Definition dropna (rs : list (cell * cell * cell)) : DataFrame :=
  flat_map (fun r => match r with
                     | (Some n, Some t, Some d) => [mkRecord n t d]
                     | _ => []
                     end) rs.

(** [df.to_csv(index=False)]: the header line, then one line per row. *)
Definition to_csv (df : DataFrame) : csv_file :=
  CSV_COLUMNS :: map (fun r => [Name r; Time r; Date r]) df.

Section Loading.

(** The type inference of [read_csv] on a column with at least one token
    that is not NaN: [true] when it converts the column to numbers or
    booleans, [false] when it leaves the tokens as text. *)
Variable converts : list string -> bool.

Definition infer_dtype (col : list cell) : dtype :=
  match col with
  | [] => object
  | _ :: _ =>
      match present col with
      | [] => converted
      | toks => if converts toks then converted else object
      end
  end.

(** [pd.read_csv(csv_file, names=['Name','Time','Date'], skiprows=1)] *)
Definition read_csv (f : csv_file) : result parsed_frame :=
  rs <- parse_lines (filter (fun l => negb (is_blank l)) (skipn 1 f)) ;;
  Ok (mkParsed (infer_dtype (map (fun r => fst (fst r)) rs),
                infer_dtype (map (fun r => snd (fst r)) rs),
                infer_dtype (map snd rs))
               rs).

(** [df[col] = df[col].str.strip()]: the [.str] accessor exists on text
    columns only. *)
Definition strip_column (dt : dtype) (update : AttendanceRecord -> AttendanceRecord)
           (df : DataFrame) : result DataFrame :=
  match dt with
  | object => Ok (map update df)
  | converted => Raise AttributeError
  end.

Definition strip_Name (r : AttendanceRecord) : AttendanceRecord :=
  mkRecord (PyStr.strip (Name r)) (Time r) (Date r).
Definition strip_Time (r : AttendanceRecord) : AttendanceRecord :=
  mkRecord (Name r) (PyStr.strip (Time r)) (Date r).
Definition strip_Date (r : AttendanceRecord) : AttendanceRecord :=
  mkRecord (Name r) (Time r) (PyStr.strip (Date r)).

(** Lines 103-111. *)
Definition load_try (f : csv_file) : result DataFrame :=
  parsed <- read_csv f ;;
  let '(dt_name, dt_time, dt_date) := dtypes parsed in
  let df := dropna (rows parsed) in
  df <- strip_column dt_name strip_Name df ;;
  df <- strip_column dt_time strip_Time df ;;
  df <- strip_column dt_date strip_Date df ;;
  Ok df.

(** [load_attendance_csv()], the body that runs when [st.cache_data] has
    no fresh result.  The argument is [Attendance.csv] on disk, [None]
    when it does not exist; the file as the call leaves it is returned
    with the frame.  The [except] clause returns the empty frame. *)
Definition load_attendance_csv (disk : option csv_file) : DataFrame * option csv_file :=
  match disk with
  | None =>
      let df : DataFrame := [] in
      (df, Some (to_csv df))
  | Some f =>
      match load_try f with
      | Ok df => (df, disk)
      | Raise _ => ([], disk)
      end
  end.

(** Lines 235-242 followed by a load of the downloaded file put in place
    of [Attendance.csv]. *)
Definition export_then_load (filtered_df : DataFrame) : DataFrame :=
  fst (load_attendance_csv (Some (to_csv filtered_df))).

End Loading.

(** An inference that converts columns of unsigned decimal integers and
    leaves every other column as text. *)
Definition is_digit (c : ascii) : bool :=
  let n := nat_of_ascii c in (48 <=? n) && (n <=? 57).

Fixpoint all_digits (s : string) : bool :=
  match s with
  | EmptyString => true
  | String c s' => is_digit c && all_digits s'
  end.

Definition converts_decimal (toks : list string) : bool :=
  forallb (fun s => negb (String.eqb s EmptyString) && all_digits s) toks.

(** ** The search pattern of the history tab *)

Module Re.

(** The regular expressions covered: a sequence of ordinary characters
    and dots. *)
Inductive atom : Type :=
| Lit (c : ascii)
| AnyChar.

Definition SPECIAL : string := ".^$*+?{}[]\|()".

Fixpoint mem (c : ascii) (s : string) : bool :=
  match s with
  | EmptyString => false
  | String d s' => Ascii.eqb c d || mem c s'
  end.

Definition is_special (c : ascii) : bool := mem c SPECIAL.

(** [re.compile(pat)] for a pattern made of ordinary characters and dots.
    [None] stands for every other pattern: they are not covered, whether
    [re] compiles them to something else or raises on them. *)
Fixpoint compile (pat : string) : option (list atom) :=
  match pat with
  | EmptyString => Some []
  | String c pat' =>
      match compile pat' with
      | None => None
      | Some p =>
          if Ascii.eqb c "." then Some (AnyChar :: p)
          else if is_special c then None
          else Some (Lit c :: p)
      end
  end.

Definition newline : ascii := ascii_of_nat 10.

Definition atom_matches (ignorecase : bool) (a : atom) (c : ascii) : bool :=
  match a with
  | Lit p =>
      if ignorecase
      then Ascii.eqb (PyStr.lower_char p) (PyStr.lower_char c)
      else Ascii.eqb p c
  | AnyChar => negb (Ascii.eqb c newline)
  end.

Fixpoint match_here (ignorecase : bool) (p : list atom) (s : string) : bool :=
  match p, s with
  | [], _ => true
  | a :: p', String c s' => atom_matches ignorecase a c && match_here ignorecase p' s'
  | _ :: _, EmptyString => false
  end.

(** [re.search] succeeds when the pattern matches at some position. *)
Fixpoint search (ignorecase : bool) (p : list atom) (s : string) : bool :=
  match_here ignorecase p s ||
  match s with
  | EmptyString => false
  | String _ s' => search ignorecase p s'
  end.

End Re.

Definition ALL_DATES : string := "Semua".

Definition is_empty (s : string) : bool :=
  match s with
  | EmptyString => true
  | String _ _ => false
  end.

(** [df['Name'].str.contains(pat, case=False)], with the default
    [regex=True]: the mask of the rows whose name the regular expression
    [pat] finds, ignoring case.  [None] when [pat] is outside the patterns
    of [Re.compile]; nothing is said of the code there. *)
Definition str_contains_nocase (pat : string) (df : DataFrame) : option (list bool) :=
  match Re.compile pat with
  | Some p => Some (map (fun r => Re.search true p (Name r)) df)
  | None => None
  end.

(** [df[mask]] *)
Fixpoint select (df : DataFrame) (mask : list bool) : DataFrame :=
  match df, mask with
  | r :: df', b :: mask' => if b then r :: select df' mask' else select df' mask'
  | _, _ => []
  end.

(** Lines 213-220 of [main]. *)
Definition apply_filters (df : DataFrame) (search_name selected_date : string)
  : option DataFrame :=
  let filtered_df := df in
  match (if negb (is_empty search_name)
         then match str_contains_nocase search_name filtered_df with
              | Some mask => Some (select filtered_df mask)
              | None => None
              end
         else Some filtered_df) with
  | None => None
  | Some filtered_df =>
      if negb (String.eqb selected_date ALL_DATES)
      then Some (select filtered_df
                        (map (fun r => String.eqb (Date r) selected_date) filtered_df))
      else Some filtered_df
  end.

(** Lines 210-211: the choices of the date box. *)
Fixpoint unique (l : list string) : list string :=
  match l with
  | [] => []
  | x :: l' => x :: filter (fun y => negb (String.eqb y x)) (unique l')
  end.

Definition date_choices (df : DataFrame) : list string :=
  ALL_DATES :: unique (map Date df).

(** ** The ranking of the statistics tab *)

(** The hash-table pass of [value_counts]: every distinct value with its
    number of occurrences, in the order of first occurrence. *)
Fixpoint bump (name : string) (acc : list (string * nat)) : list (string * nat) :=
  match acc with
  | [] => [(name, 1)]
  | (k, n) :: acc' =>
      if String.eqb k name then (k, S n) :: acc' else (k, n) :: bump name acc'
  end.

Definition tally (names : list string) : list (string * nat) :=
  fold_left (fun acc name => bump name acc) names [].

Section Ranking.

(** [Series.sort_values(ascending=False)] with the default [kind]: the
    library sort that orders the tallied counts. *)
Variable sort_values_desc : list (string * nat) -> list (string * nat).

(** [df['Name'].value_counts()] *)
Definition value_counts (names : list string) : list (string * nat) :=
  sort_values_desc (tally names).

(** Line 316: [df['Name'].value_counts().head(5).reset_index()] *)
Definition top_students (df : DataFrame) : list (string * nat) :=
  firstn 5 (value_counts (map Name df)).

End Ranking.

(** What the documentation of [sort_values] promises of the default sort:
    the same entries, counts never increasing. *)
Definition descending (l : list (string * nat)) : Prop :=
  StronglySorted (fun a b => snd b <= snd a) l.

Definition sorts_descending (sort : list (string * nat) -> list (string * nat)) : Prop :=
  forall l, Permutation (sort l) l /\ descending (sort l).

(** Two insertion sorts by decreasing count.  The first keeps entries of
    equal count in their order of arrival, the second reverses them. *)
Fixpoint insert_before_ties (x : string * nat) (l : list (string * nat)) : list (string * nat) :=
  match l with
  | [] => [x]
  | y :: l' => if snd y <=? snd x then x :: y :: l' else y :: insert_before_ties x l'
  end.

Fixpoint insert_after_ties (x : string * nat) (l : list (string * nat)) : list (string * nat) :=
  match l with
  | [] => [x]
  | y :: l' => if snd y <? snd x then x :: y :: l' else y :: insert_after_ties x l'
  end.

Definition stable_sort_desc (l : list (string * nat)) : list (string * nat) :=
  fold_right insert_before_ties [] l.

Definition reversing_sort_desc (l : list (string * nat)) : list (string * nat) :=
  fold_right insert_after_ties [] l.

(** ** Vocabulary of the statements *)

(** A message whose payload fails to decode: [decode] raises, or it
    returns a text on which [json.loads] raises. *)
Definition decode_fails (decode : list Byte.byte -> result string)
           (json_loads : string -> result json) (msg : MQTTMessage) : Prop :=
  match decode (payload msg) with
  | Raise _ => True
  | Ok text => match json_loads text with
               | Raise _ => True
               | Ok _ => False
               end
  end.

(** A message that decodes to a key/value mapping. *)
Definition decodes_to (decode : list Byte.byte -> result string)
           (json_loads : string -> result json) (msg : MQTTMessage)
           (d : list (string * json)) : Prop :=
  exists text, decode (payload msg) = Ok text /\ json_loads text = Ok (JDict d).

(** The event pushed for a decoded mapping: the mapping itself, with the
    receipt time added under [received_at] when the key is absent. *)
Definition stamped (d : list (string * json)) (now : datetime) : json :=
  if dict_has "received_at" d then JDict d
  else JDict (dict_set "received_at" (JStr (strftime_ymd_hms now)) d).

(** Some call of the [try] block of [setup_mqtt] raises. *)
Definition setup_fails (env : setup_env) : Prop :=
  constructor_raises env <> None \/ connect_raises env <> None \/ loop_start_raises env <> None.

Definition setup_succeeds (env : setup_env) : Prop :=
  constructor_raises env = None /\ connect_raises env = None /\ loop_start_raises env = None.

(** What holds of every reachable world: the flag is set only while a
    client subscribed to the topic is stored, and one network loop was
    started exactly when a client is stored. *)
Definition coherent (w : World) : Prop :=
  match mqtt_client (session w) with
  | Some c =>
      loops_started w = 1
      /\ (mqtt_connected (session w) = false \/ In MQTT_TOPIC (subscriptions c))
  | None => loops_started w = 0 /\ mqtt_connected (session w) = false
  end.

Definition has_nan (r : cell * cell * cell) : bool :=
  match r with
  | (Some _, Some _, Some _) => false
  | _ => true
  end.

Definition cells_of (r : AttendanceRecord) : cell * cell * cell :=
  (Some (Name r), Some (Time r), Some (Date r)).

Definition strip_record (r : AttendanceRecord) : AttendanceRecord :=
  mkRecord (PyStr.strip (Name r)) (PyStr.strip (Time r)) (PyStr.strip (Date r)).

Definition trimmed_record (r : AttendanceRecord) : Prop :=
  PyStr.trimmed (Name r) /\ PyStr.trimmed (Time r) /\ PyStr.trimmed (Date r).

Definition no_na_field (r : AttendanceRecord) : Prop :=
  is_na (Name r) = false /\ is_na (Time r) = false /\ is_na (Date r) = false.

(** The three columns of a frame are read back as text. *)
Definition text_columns (converts : list string -> bool) (df : DataFrame) : Prop :=
  infer_dtype converts (map (fun r => Some (Name r)) df) = object /\
  infer_dtype converts (map (fun r => Some (Time r)) df) = object /\
  infer_dtype converts (map (fun r => Some (Date r)) df) = object.

(** The count a tally holds for a name, 0 when the name is absent; the
    number of rows of a column that carry the name. *)
Definition count_of (name : string) (acc : list (string * nat)) : nat :=
  match find (fun kv => String.eqb (fst kv) name) acc with
  | Some kv => snd kv
  | None => 0
  end.

Definition occurrences (name : string) (names : list string) : nat :=
  List.length (filter (String.eqb name) names).

(** A search string without regular-expression operators. *)
Fixpoint plain (s : string) : bool :=
  match s with
  | EmptyString => true
  | String c s' => negb (Re.is_special c) && plain s'
  end.

(** The name contains the search string, ignoring case. *)
Definition name_contains (search : string) (r : AttendanceRecord) : Prop :=
  PyStr.contains (PyStr.lower search) (PyStr.lower (Name r)).

(** ** Stand-ins for the decoding libraries, for closed examples *)

Definition new_year : datetime := mkDatetime 2024 1 1 9 30 0.

(** Decoding of seven-bit payloads; a byte above 127 is rejected. *)
Fixpoint seven_bit_decode (bs : list Byte.byte) : result string :=
  match bs with
  | [] => Ok EmptyString
  | b :: bs' =>
      if 128 <=? nat_of_ascii (ascii_of_byte b) then Raise UnicodeDecodeError
      else s <- seven_bit_decode bs' ;; Ok (String (ascii_of_byte b) s)
  end.

(** A [json.loads] that knows three texts. *)
Definition small_json_loads (text : string) : result json :=
  if String.eqb text "{}" then Ok (JDict [])
  else if String.eqb text "null" then Ok JNull
  else if String.eqb text "[]" then Ok (JList [])
  else Raise JSONDecodeError.

(** ** The summary metrics and the recent table of [main] *)

Definition MONTH_NAMES : list string :=
  [ "January"; "February"; "March"; "April"; "May"; "June"; "July"; "August";
    "September"; "October"; "November"; "December" ].

(** [now.strftime('%d-%B-%Y')], month names of the C locale, for the
    months 1 to 12 and the years of four digits a [datetime] has. *)
Definition strftime_d_B_Y (now : datetime) : string :=
  (zero_pad 2 (day now) ++ "-" ++ nth (month now - 1) MONTH_NAMES EmptyString
   ++ "-" ++ zero_pad 4 (year now))%string.

(** Line 163: [len(df['Name'].unique()) if len(df) > 0 else 0] *)
Definition total_students (df : DataFrame) : nat :=
  if 0 <? List.length df then List.length (unique (map Name df)) else 0.

(** Lines 166-167: the rows dated today. *)
Definition present_today (df : DataFrame) (now : datetime) : nat :=
  if 0 <? List.length df
  then List.length (select df (map (fun r => String.eqb (Date r) (strftime_d_B_Y now)) df))
  else 0.

(** Line 170: [len(df)] *)
Definition total_records (df : DataFrame) : nat := List.length df.

(** [df.tail(n)] *)
Definition tail (n : nat) (df : DataFrame) : DataFrame :=
  skipn (List.length df - n) df.

(** [df.iloc[::-1]] *)
Definition iloc_reversed (df : DataFrame) : DataFrame := rev df.

(** Line 183: [df.tail(10).iloc[::-1]] *)
Definition latest_df (df : DataFrame) : DataFrame := iloc_reversed (tail 10 df).

(** ** The live tab of [main] *)

Fixpoint dict_get (key : string) (d : list (string * json)) : option json :=
  match d with
  | [] => None
  | (k, v) :: d' => if String.eqb k key then Some v else dict_get key d'
  end.

(** [msg.get(key, default)]: only a dict has the method. *)
Definition py_get (key : string) (default : json) (msg : json) : result json :=
  match msg with
  | JDict d => Ok (match dict_get key d with
                   | Some v => v
                   | None => default
                   end)
  | _ => Raise AttributeError
  end.

Definition upper_char (c : ascii) : ascii :=
  let n := nat_of_ascii c in
  if (97 <=? n) && (n <=? 122) then ascii_of_nat (n - 32) else c.

Fixpoint upper (s : string) : string :=
  match s with
  | EmptyString => EmptyString
  | String c s' => String (upper_char c) (upper s')
  end.

(** [v.upper()]: only a str has the method. *)
Definition py_upper (v : json) : result string :=
  match v with
  | JStr s => Ok (upper s)
  | _ => Raise AttributeError
  end.

(** What lines 259-263 put on the page for one event: the name in capitals
    and the two values formatted after it. *)
Record card : Type := mkCard
  { card_name : string; card_time : json; card_date : json }.

Definition render_card (msg : json) : result card :=
  name <- py_get "name" (JStr "Unknown") msg ;;
  name <- py_upper name ;;
  time <- py_get "time" (JStr "N/A") msg ;;
  date <- py_get "date" (JStr "N/A") msg ;;
  Ok (mkCard name time date).

(** The loop of line 254, stopped by the first exception. *)
Fixpoint render_cards (msgs : list json) : result (list card) :=
  match msgs with
  | [] => Ok []
  | msg :: msgs' =>
      c <- render_card msg ;;
      cs <- render_cards msgs' ;;
      Ok (c :: cs)
  end.

Inductive live_view : Type :=
| Offline
| NoMessages
| Cards (cards : list card).

(** Lines 250-272. *)
Definition live_tab (st : session_state) : result live_view :=
  if mqtt_connected st
  then if 0 <? List.length (mqtt_messages st)
       then cs <- render_cards (Deque.snapshot (mqtt_messages st)) ;; Ok (Cards cs)
       else Ok NoMessages
  else Ok Offline.

(** An event the loop can show: a mapping whose name, when it has one, is
    a string. *)
Definition showable (msg : json) : Prop :=
  match msg with
  | JDict d => match dict_get "name" d with
               | Some (JStr _) | None => True
               | Some _ => False
               end
  | _ => False
  end.

(** ** The chart by student of the statistics tab *)

(** Lines 283-284: [df['Name'].value_counts().reset_index()], with the
    sort [value_counts] uses. *)
Definition attendance_count (sort_values_desc : list (string * nat) -> list (string * nat))
           (df : DataFrame) : list (string * nat) :=
  value_counts sort_values_desc (map Name df).

(** ** The trend by date of the statistics tab *)

Section Trend.

(** The sort inside [value_counts] and [sort_values('Date')], both with the
    default [kind]. *)
Variable sort_values_desc : list (string * nat) -> list (string * nat).
Variable sort_values_Date : list (string * nat) -> list (string * nat).

(** Lines 300-302. *)
Definition attendance_by_date (df : DataFrame) : list (string * nat) :=
  sort_values_Date (value_counts sort_values_desc (map Date df)).

End Trend.

(** What [sort_values('Date')] promises: the same entries, dates never
    decreasing in the order of [str]. *)
Definition ascending_dates (l : list (string * nat)) : Prop :=
  StronglySorted (fun a b => String.leb (fst a) (fst b) = true) l.

Definition sorts_by_date (sort : list (string * nat) -> list (string * nat)) : Prop :=
  forall l, Permutation (sort l) l /\ ascending_dates (sort l).

Definition permutes (sort : list (string * nat) -> list (string * nat)) : Prop :=
  forall l, Permutation (sort l) l.

(** Insertion sort by date, for closed examples. *)
Fixpoint insert_by_date (x : string * nat) (l : list (string * nat)) : list (string * nat) :=
  match l with
  | [] => [x]
  | y :: l' => if String.leb (fst x) (fst y) then x :: y :: l' else y :: insert_by_date x l'
  end.

Definition sort_by_date (l : list (string * nat)) : list (string * nat) :=
  fold_right insert_by_date [] l.

(** ** More vocabulary *)

Fixpoint all_space (s : string) : bool :=
  match s with
  | EmptyString => true
  | String c s' => PyStr.is_space c && all_space s'
  end.

Definition is_render (ev : event) : bool :=
  match ev with
  | Render _ => true
  | _ => false
  end.

Definition is_publish (ev : event) : bool :=
  match ev with
  | Publish _ _ => true
  | _ => false
  end.

(** The client [setup_mqtt] stores, up to its subscriptions. *)
Definition configured (c : Client) : Prop :=
  client_id c = MQTT_CLIENT_ID
  /\ clean_session c = true
  /\ callbacks_installed c = true
  /\ remote c = Some (MQTT_BROKER, MQTT_PORT, 60%Z)
  /\ loop_running c = true
  /\ Forall (fun t => t = MQTT_TOPIC) (subscriptions c).

Definition has_na_field (r : AttendanceRecord) : bool :=
  is_na (Name r) || is_na (Time r) || is_na (Date r).

(** * Properties *)

(** ** Trimming *)

Lemma lstrip_no_leading_space (s : string) :
  PyStr.starts_with_space (PyStr.lstrip s) = false.
Proof.
  induction s as [|c s IH]; simpl; [reflexivity|].
  destruct (PyStr.is_space c) eqn:Hc; [exact IH|].
  simpl. exact Hc.
Qed.

Lemma rstrip_no_trailing_space (s : string) :
  PyStr.ends_with_space (PyStr.rstrip s) = false.
Proof.
  induction s as [|c s IH]; simpl; [reflexivity|].
  destruct (PyStr.rstrip s) as [|d r] eqn:Hr.
  - destruct (PyStr.is_space c) eqn:Hc; simpl; [reflexivity|exact Hc].
  - exact IH.
Qed.

Lemma lstrip_keeps_end (s : string) :
  PyStr.ends_with_space s = false -> PyStr.ends_with_space (PyStr.lstrip s) = false.
Proof.
  induction s as [|c s IH]; intros H; [reflexivity|].
  simpl PyStr.lstrip. destruct (PyStr.is_space c) eqn:Hc.
  - apply IH. destruct s; [reflexivity|exact H].
  - exact H.
Qed.

Lemma strip_is_trimmed (s : string) : PyStr.trimmed (PyStr.strip s).
Proof.
  split.
  - apply lstrip_no_leading_space.
  - apply lstrip_keeps_end, rstrip_no_trailing_space.
Qed.

Lemma lstrip_fixed (s : string) :
  PyStr.starts_with_space s = false -> PyStr.lstrip s = s.
Proof.
  destruct s as [|c s]; simpl; intros H; [reflexivity|].
  rewrite H. reflexivity.
Qed.

Lemma rstrip_fixed (s : string) :
  PyStr.ends_with_space s = false -> PyStr.rstrip s = s.
Proof.
  induction s as [|c s IH]; simpl; intros H; [reflexivity|].
  destruct s as [|d s'].
  - simpl. rewrite H. reflexivity.
  - rewrite (IH H). reflexivity.
Qed.

Lemma strip_fixed (s : string) : PyStr.trimmed s -> PyStr.strip s = s.
Proof.
  intros [Hl Hr]. unfold PyStr.strip.
  rewrite (rstrip_fixed s Hr). apply lstrip_fixed, Hl.
Qed.

Lemma strip_record_is_trimmed (r : AttendanceRecord) : trimmed_record (strip_record r).
Proof.
  repeat split; simpl; apply strip_is_trimmed.
Qed.

Lemma strip_record_fixed (r : AttendanceRecord) : trimmed_record r -> strip_record r = r.
Proof.
  destruct r as [n t d]. intros (Hn & Ht & Hd). simpl in *.
  unfold strip_record. simpl.
  rewrite (strip_fixed n Hn), (strip_fixed t Ht), (strip_fixed d Hd). reflexivity.
Qed.

(** ** The bounded buffer *)






(** ** Messages *)

Section MessageFacts.

Variable decode : list Byte.byte -> result string.
Variable json_loads : string -> result json.

Lemma received_event_fails (msg : MQTTMessage) (now : datetime) :
  decode_fails decode json_loads msg ->
  exists e, received_event decode json_loads msg now = Raise e.
Proof.
  unfold decode_fails, received_event. intros H.
  destruct (decode (payload msg)) as [text|e]; cbn [bind].
  - destruct (json_loads text) as [data|e]; cbn [bind].
    + contradiction.
    + exists e. reflexivity.
  - exists e. reflexivity.
Qed.

Lemma received_event_mapping (msg : MQTTMessage) (now : datetime)
      (d : list (string * json)) :
  decodes_to decode json_loads msg d ->
  received_event decode json_loads msg now = Ok (stamped d now).
Proof.
  intros (text & Hdec & Hjson). unfold received_event, stamped.
  rewrite Hdec. cbn [bind]. rewrite Hjson. cbn [bind py_in].
  destruct (dict_has "received_at" d); reflexivity.
Qed.

(** On the network thread the handler changes nothing, whatever arrives. *)
Lemma on_message_network (msg : MQTTMessage) (now : datetime) (st : session_state) :
  on_message decode json_loads NetworkThread msg now st = st.
Proof.
  unfold on_message, on_message_try, state_read.
  destruct (received_event decode json_loads msg now); reflexivity.
Qed.

(** On the script thread it pushes the event it built. *)
Lemma on_message_script (msg : MQTTMessage) (now : datetime) (st : session_state) :
  mqtt_messages (on_message decode json_loads ScriptThread msg now st)
  = match received_event decode json_loads msg now with
    | Ok data => Deque.appendleft MESSAGES_MAXLEN data (mqtt_messages st)
    | Raise _ => mqtt_messages st
    end.
Proof.
  unfold on_message, on_message_try, state_read, state_write.
  destruct (received_event decode json_loads msg now); reflexivity.
Qed.

Lemma on_message_connected (t : thread) (msg : MQTTMessage) (now : datetime)
      (st : session_state) :
  mqtt_connected (on_message decode json_loads t msg now st) = mqtt_connected st
  /\ mqtt_client (on_message decode json_loads t msg now st) = mqtt_client st.
Proof.
  unfold on_message, on_message_try, state_read, state_write.
  destruct (received_event decode json_loads msg now); destruct t; split; reflexivity.
Qed.

(** A message that fails to decode is dropped on either thread. *)
Lemma decode_failure_is_dropped (t : thread) (msg : MQTTMessage) (now : datetime)
      (st : session_state) :
  decode_fails decode json_loads msg ->
  on_message decode json_loads t msg now st = st.
Proof.
  intros Hbad. destruct (received_event_fails msg now Hbad) as [e He].
  unfold on_message, on_message_try. rewrite He. reflexivity.
Qed.

Lemma with_own_session (w : World) : with_session (session w) w = w.
Proof. destruct w. reflexivity. Qed.

Lemma step_publish (w : World) (msg : MQTTMessage) (now : datetime) :
  step decode json_loads w (Publish msg now) = w.
Proof.
  cbn [step]. destruct (mqtt_client (session w)); [|reflexivity].
  rewrite on_message_network. apply with_own_session.
Qed.

End MessageFacts.

Lemma appendleft_head {A : Type} (x : A) (d : list A) :
  hd_error (Deque.appendleft MESSAGES_MAXLEN x d) = Some x.
Proof.
  unfold Deque.appendleft.
  destruct (MESSAGES_MAXLEN <? List.length (x :: d)) eqn:Hfull; [|reflexivity].
  destruct d as [|y d]; [discriminate Hfull|reflexivity].
Qed.

(** C6.  Where the client calls it, the handler drops the valid message as
    it drops the malformed one.  On the network thread the read of
    [st.session_state.mqtt_messages] of line 63 raises, the [except] clause
    swallows it, and the session is left as it was: no message the running
    dashboard receives changes its state.  The same handler called on the
    script thread pushes the event.  For the payload [{}] after a stored
    client: the event is built, pushed on the script thread, and lost on
    the network thread. *)
Theorem network_thread_drops_valid_message :
  (forall (decode : list Byte.byte -> result string) (json_loads : string -> result json)
          (msg : MQTTMessage) (now : datetime),
      (forall st, on_message decode json_loads NetworkThread msg now st = st)
      /\ (forall w, step decode json_loads w (Publish msg now) = w)
      /\ (forall st,
            mqtt_messages (on_message decode json_loads ScriptThread msg now st)
            = match received_event decode json_loads msg now with
              | Ok data => Deque.appendleft MESSAGES_MAXLEN data (mqtt_messages st)
              | Raise _ => mqtt_messages st
              end))
  /\ (let good := mkMessage MQTT_TOPIC [Byte.x7b; Byte.x7d] in
      let ev := JDict [("received_at", JStr "2024-01-01 09:30:00")] in
      let w := setup_mqtt all_succeed (initial_world new_year) in
      received_event seven_bit_decode small_json_loads good new_year = Ok ev
      /\ mqtt_messages (on_message seven_bit_decode small_json_loads ScriptThread
                          good new_year (session w)) = [ev]
      /\ mqtt_messages (session (step seven_bit_decode small_json_loads w
                                   (Publish good new_year))) = []).
Proof.
  split.
  - intros decode json_loads msg now. split; [|split].
    + intros st. apply on_message_network.
    + intros w. apply step_publish.
    + intros st. apply on_message_script.
  - split; [reflexivity|]. split; reflexivity.
Qed.

(** A payload that decodes to a JSON value other than a container makes
    the membership test raise, and the message is dropped like one that
    fails to decode, on either thread. *)
Lemma scalar_payload_is_dropped
      (decode : list Byte.byte -> result string) (json_loads : string -> result json)
      (t : thread) (msg : MQTTMessage) (now : datetime) (st : session_state)
      (text : string) (data : json) :
  decode (payload msg) = Ok text ->
  json_loads text = Ok data ->
  match data with
  | JNull | JBool _ | JInt _ | JFloat _ => True
  | _ => False
  end ->
  on_message decode json_loads t msg now st = st.
Proof.
  intros Hdec Hjson Hscalar. unfold on_message, on_message_try, received_event.
  rewrite Hdec. cbn [bind]. rewrite Hjson. cbn [bind].
  destruct data; try contradiction; reflexivity.
Qed.

(** ** Connection state *)

Lemma setup_try_cases (env : setup_env) (w : World) :
  (setup_fails env /\ exists w' e,
      setup_try env w = (w', Some e) /\ session w' = session w
      /\ loops_started w' = loops_started w
      /\ (constructor_raises env = None -> connect_calls w' = S (connect_calls w)))
  \/ (setup_succeeds env /\ exists c,
      setup_try env w
      = (mkWorld (set_client (Some c) (session w)) (S (clients_created w))
                 (S (connect_calls w)) (S (loops_started w)) (ui_errors w), None)).
Proof.
  unfold setup_try, setup_fails, setup_succeeds.
  destruct (constructor_raises env) as [e1|] eqn:H1.
  - left. split; [left; discriminate|].
    exists w, e1. repeat split; try reflexivity. discriminate.
  - destruct (connect_raises env) as [e2|] eqn:H2.
    + left. split; [right; left; discriminate|].
      eexists. exists e2. repeat split; reflexivity.
    + destruct (loop_start_raises env) as [e3|] eqn:H3.
      * left. split; [right; right; discriminate|].
        eexists. exists e3. repeat split; reflexivity.
      * right. split; [repeat split|]. eexists. reflexivity.
Qed.

Section WorldFacts.

Variable decode : list Byte.byte -> result string.
Variable json_loads : string -> result json.

Lemma step_coherent (w : World) (ev : event) :
  coherent w -> coherent (step decode json_loads w ev).
Proof.
  unfold coherent. intros H.
  destruct ev as [env|rc|rc|msg now]; [| | |rewrite step_publish; exact H]; cbn [step].
  - unfold setup_mqtt.
    destruct (mqtt_client (session w)) as [c|] eqn:Hc; [rewrite Hc; exact H|].
    destruct H as [Hl Hconn].
    destruct (setup_try_cases env w) as [(Hf & w' & e & Heq & Hs & Hl' & _)|(_ & c & Heq)];
      rewrite Heq.
    + cbn. rewrite Hs, Hc, Hl', Hl. split; reflexivity.
    + cbn. rewrite Hl, Hconn. split; [reflexivity|left; reflexivity].
  - destruct (mqtt_client (session w)) as [c|] eqn:Hc; [|rewrite Hc; exact H].
    destruct H as [Hl Hconn]. unfold on_connect.
    destruct (rc =? 0)%Z; cbn.
    + split; [exact Hl|right]. apply in_or_app. right. left. reflexivity.
    + split; [exact Hl|]. destruct Hconn as [Hd|Hs]; [left; exact Hd|right; exact Hs].
  - destruct (mqtt_client (session w)) as [c|] eqn:Hc; [|rewrite Hc; exact H].
    destruct H as [Hl Hconn]. cbn. split; [exact Hl|exact Hconn].
Qed.

Lemma run_coherent (evs : list event) :
  forall w, coherent w -> coherent (run decode json_loads evs w).
Proof.
  induction evs as [|ev evs IH]; intros w H; [exact H|].
  apply (IH (step decode json_loads w ev)), step_coherent, H.
Qed.

Lemma initial_coherent (now : datetime) : coherent (initial_world now).
Proof. split; reflexivity. Qed.

(** Once a client is stored, no event replaces it, constructs another
    one, connects again or starts another loop. *)
Lemma step_keeps_client (w : World) (ev : event) (c : Client) :
  mqtt_client (session w) = Some c ->
  (exists c', mqtt_client (session (step decode json_loads w ev)) = Some c')
  /\ clients_created (step decode json_loads w ev) = clients_created w
  /\ connect_calls (step decode json_loads w ev) = connect_calls w
  /\ loops_started (step decode json_loads w ev) = loops_started w.
Proof.
  intros Hc. destruct ev as [env|rc|rc|msg now];
    [| | |rewrite step_publish; repeat split; exists c; exact Hc]; cbn [step].
  - unfold setup_mqtt. rewrite Hc. repeat split. exists c. exact Hc.
  - rewrite Hc. unfold on_connect. destruct (rc =? 0)%Z; cbn;
      repeat split; eexists; reflexivity.
  - rewrite Hc. cbn. repeat split. eexists. reflexivity.
Qed.

Lemma run_keeps_client (evs : list event) :
  forall (w : World) (c : Client),
    mqtt_client (session w) = Some c ->
    (exists c', mqtt_client (session (run decode json_loads evs w)) = Some c')
    /\ clients_created (run decode json_loads evs w) = clients_created w
    /\ connect_calls (run decode json_loads evs w) = connect_calls w
    /\ loops_started (run decode json_loads evs w) = loops_started w.
Proof.
  induction evs as [|ev evs IH]; intros w c Hc.
  - repeat split. exists c. exact Hc.
  - destruct (step_keeps_client w ev c Hc) as ((c' & Hc') & H1 & H2 & H3).
    destruct (IH (step decode json_loads w ev) c' Hc') as (Hex & H1' & H2' & H3').
    change (run decode json_loads (ev :: evs) w)
      with (run decode json_loads evs (step decode json_loads w ev)).
    repeat split; [exact Hex|congruence|congruence|congruence].
Qed.

(** No step sets the flag or fills the buffer of the session. *)
Lemma step_keeps_session_idle (w : World) (ev : event) :
  mqtt_connected (session w) = false /\ mqtt_messages (session w) = [] ->
  mqtt_connected (session (step decode json_loads w ev)) = false
  /\ mqtt_messages (session (step decode json_loads w ev)) = [].
Proof.
  intros [Hf Hb].
  destruct ev as [env|rc|rc|msg now];
    [| | |rewrite step_publish; split; assumption]; cbn [step].
  - unfold setup_mqtt.
    destruct (mqtt_client (session w)) as [c|]; [split; assumption|].
    destruct (setup_try_cases env w) as [(_ & w' & e & Heq & Hs & _)|(_ & c & Heq)];
      rewrite Heq; cbn; [rewrite Hs|]; split; try reflexivity; assumption.
  - destruct (mqtt_client (session w)) as [c|]; [|split; assumption].
    unfold on_connect. destruct (rc =? 0)%Z; cbn; split; assumption.
  - destruct (mqtt_client (session w)) as [c|]; [|split; assumption].
    cbn. split; assumption.
Qed.

Lemma run_keeps_session_idle (evs : list event) :
  forall w : World,
    mqtt_connected (session w) = false /\ mqtt_messages (session w) = [] ->
    mqtt_connected (session (run decode json_loads evs w)) = false
    /\ mqtt_messages (session (run decode json_loads evs w)) = [].
Proof.
  induction evs as [|ev evs IH]; intros w H; [exact H|].
  apply (IH (step decode json_loads w ev)), step_keeps_session_idle, H.
Qed.

End WorldFacts.

(** C8.  The session starts Disconnected, and the connect callback is
    written to set Connected exactly when the return code is 0: that is
    what it does to a session within its reach, and it subscribes the
    client to the fixed topic.  But the client calls it on the network
    thread, where the assignment of line 42 is lost: after a successful
    handshake the client is subscribed and the session is unchanged, and in
    every state the running dashboard reaches the connection state that
    [main] reads is Disconnected. *)
Theorem connected_flag_is_never_set :
  forall (decode : list Byte.byte -> result string) (json_loads : string -> result json),
    (forall now, connection_state (initial_session now) = Disconnected)
    /\ (forall c rc st,
          connection_state (snd (on_connect ScriptThread c rc st))
          = if (rc =? 0)%Z then Connected else Disconnected)
    /\ (forall c st,
          on_connect NetworkThread c 0%Z st = (subscribe MQTT_TOPIC c, st))
    /\ (forall evs now,
          connection_state (session (run decode json_loads evs (initial_world now)))
          = Disconnected)
    /\ (let w := run decode json_loads [Render all_succeed; ConnAck 0%Z]
                     (initial_world new_year) in
        mqtt_connected (session w) = false
        /\ exists c, mqtt_client (session w) = Some c
                     /\ subscriptions c = [MQTT_TOPIC]).
Proof.
  intros decode json_loads.
  split; [reflexivity|]. split.
  { intros c rc st. unfold on_connect. destruct (rc =? 0)%Z; reflexivity. }
  split; [reflexivity|]. split.
  { intros evs now. unfold connection_state.
    destruct (run_keeps_session_idle decode json_loads evs (initial_world now))
      as [-> _]; [split; reflexivity|reflexivity]. }
  split; [reflexivity|]. eexists. split; reflexivity.
Qed.

(** C9.  When a client is already stored, [setup_mqtt] returns the world it
    was given: nothing is constructed, connected or stored.  Over any run
    of the dashboard from its initial state at most one client is ever
    stored and started: the stored client stays stored through every later
    event, and no later event constructs another client or starts another
    network loop. *)
Theorem setup_mqtt_idempotent :
  forall (decode : list Byte.byte -> result string) (json_loads : string -> result json)
         (env : setup_env) (w : World) (c : Client),
    mqtt_client (session w) = Some c ->
    setup_mqtt env w = w
    /\ (forall evs,
          (exists c', mqtt_client (session (run decode json_loads evs w)) = Some c')
          /\ clients_created (run decode json_loads evs w) = clients_created w
          /\ loops_started (run decode json_loads evs w) = loops_started w)
    /\ (forall evs now, loops_started (run decode json_loads evs (initial_world now)) <= 1).
Proof.
  intros decode json_loads env w c Hc. split.
  { unfold setup_mqtt. rewrite Hc. reflexivity. }
  split.
  { intros evs.
    destruct (run_keeps_client decode json_loads evs w c Hc) as (Hex & H1 & _ & H3).
    split; [exact Hex|]. split; [exact H1|exact H3]. }
  intros evs now.
  pose proof (run_coherent decode json_loads evs _ (initial_coherent now)) as H.
  unfold coherent in H.
  destruct (mqtt_client (session (run decode json_loads evs (initial_world now))));
    destruct H as [-> _]; lia.
Qed.

Lemma setup_mqtt_idempotent_witness :
  let w := setup_mqtt all_succeed (initial_world new_year) in
  mqtt_client (session w)
  = Some (mkClient MQTT_CLIENT_ID true true (Some (MQTT_BROKER, MQTT_PORT, 60%Z)) true [])
  /\ setup_mqtt all_succeed w = w
  /\ clients_created (setup_mqtt (mkEnv None (Some OSError) None) w) = 1.
Proof.
  intros w.
  assert (Hc : mqtt_client (session w)
               = Some (mkClient MQTT_CLIENT_ID true true
                                (Some (MQTT_BROKER, MQTT_PORT, 60%Z)) true []))
    by reflexivity.
  split; [exact Hc|]. split.
  - exact (proj1 (setup_mqtt_idempotent seven_bit_decode small_json_loads
                    all_succeed w _ Hc)).
  - rewrite (proj1 (setup_mqtt_idempotent seven_bit_decode small_json_loads
                      (mkEnv None (Some OSError) None) w _ Hc)).
    reflexivity.
Defined.

(** C10.  When no client is stored and a call of the [try] block raises,
    [setup_mqtt] leaves the client unset and the connected flag false, and
    the next call goes through the connection again (one more call of
    [connect], unless the constructor itself raises).  When the block runs
    to its end a client is stored, and from then on it stays stored and
    [connect] is never called again, whatever happens. *)
Theorem failed_setup_is_retried :
  forall (decode : list Byte.byte -> result string) (json_loads : string -> result json)
         (env : setup_env) (w : World),
    mqtt_client (session w) = None ->
    (setup_fails env ->
       let w' := setup_mqtt env w in
       mqtt_client (session w') = None
       /\ mqtt_connected (session w') = false
       /\ forall env', constructor_raises env' = None ->
            connect_calls (setup_mqtt env' w') = S (connect_calls w'))
    /\ (setup_succeeds env ->
       let w' := setup_mqtt env w in
       (exists c, mqtt_client (session w') = Some c)
       /\ forall evs,
            (exists c, mqtt_client (session (run decode json_loads evs w')) = Some c)
            /\ connect_calls (run decode json_loads evs w') = connect_calls w').
Proof.
  intros decode json_loads env w Hnone. split.
  - intros Hf w'.
    assert (Hw' : mqtt_client (session w') = None /\ mqtt_connected (session w') = false).
    { unfold w', setup_mqtt. rewrite Hnone.
      destruct (setup_try_cases env w) as [(_ & w1 & e & Heq & Hs & _)|((H1 & H2 & H3) & _)].
      - rewrite Heq. cbn. rewrite Hs, Hnone. split; reflexivity.
      - destruct Hf as [Hf|[Hf|Hf]]; congruence. }
    destruct Hw' as [Hc Hconn]. split; [exact Hc|]. split; [exact Hconn|].
    intros env' Hctor. unfold setup_mqtt at 1. rewrite Hc.
    destruct (setup_try_cases env' w') as [(_ & w1 & e & Heq & _ & _ & Hcalls)|(_ & c & Heq)];
      rewrite Heq; cbn.
    + apply Hcalls, Hctor.
    + reflexivity.
  - intros Hs w'.
    assert (Hw' : exists c, mqtt_client (session w') = Some c).
    { unfold w', setup_mqtt. rewrite Hnone.
      destruct (setup_try_cases env w) as [(Hf & _)|(_ & c & Heq)].
      - destruct Hs as (H1 & H2 & H3). destruct Hf as [Hf|[Hf|Hf]]; congruence.
      - rewrite Heq. exists c. reflexivity. }
    split; [exact Hw'|]. destruct Hw' as [c Hc]. intros evs.
    destruct (run_keeps_client decode json_loads evs w' c Hc) as (Hex & _ & H2 & _).
    split; [exact Hex|exact H2].
Qed.

Lemma failed_setup_is_retried_witness :
  let refused := mkEnv None (Some OSError) None in
  let w := setup_mqtt refused (initial_world new_year) in
  mqtt_client (session (initial_world new_year)) = None
  /\ setup_fails refused
  /\ mqtt_client (session w) = None
  /\ connect_calls w = 1
  /\ connect_calls (setup_mqtt refused w) = 2.
Proof.
  intros refused w.
  assert (Hnone : mqtt_client (session (initial_world new_year)) = None) by reflexivity.
  assert (Hf : setup_fails refused) by (right; left; discriminate).
  destruct (failed_setup_is_retried seven_bit_decode small_json_loads refused
              (initial_world new_year) Hnone) as [Hfail _].
  destruct (Hfail Hf) as (Hc & _ & Hnext).
  split; [exact Hnone|]. split; [exact Hf|]. split; [exact Hc|].
  split; [reflexivity|]. exact (Hnext refused eq_refl).
Defined.

(** ** Loading *)

Lemma dropna_filter (rs : list (cell * cell * cell)) :
  map cells_of (dropna rs) = filter (fun r => negb (has_nan r)) rs.
Proof.
  induction rs as [|[[[n|] [t|]] [d|]] rs IH]; cbn in *;
    try exact IH; try reflexivity.
  f_equal. exact IH.
Qed.

Lemma dropna_cells_of (df : DataFrame) : dropna (map cells_of df) = df.
Proof.
  induction df as [|[n t d] df IH]; cbn in *; [reflexivity|].
  f_equal. exact IH.
Qed.

Lemma parse_cell_nan (tok : string) : parse_cell tok = None <-> In tok NA_VALUES.
Proof.
  unfold parse_cell, is_na. split.
  - destruct (existsb (String.eqb tok) NA_VALUES) eqn:H; [|discriminate].
    intros _. apply existsb_exists in H. destruct H as (x & Hin & Heq).
    apply String.eqb_eq in Heq. subst x. exact Hin.
  - intros Hin.
    assert (H : existsb (String.eqb tok) NA_VALUES = true).
    { apply existsb_exists. exists tok. split; [exact Hin|apply String.eqb_refl]. }
    rewrite H. reflexivity.
Qed.

Lemma strip_columns_all (df : DataFrame) :
  map strip_Date (map strip_Time (map strip_Name df)) = map strip_record df.
Proof.
  rewrite !map_map. apply map_ext. intros [n t d]. reflexivity.
Qed.

Section LoadingFacts.

Variable converts : list string -> bool.

Lemma load_try_text (f : csv_file) (parsed : parsed_frame) :
  read_csv converts f = Ok parsed ->
  dtypes parsed = (object, object, object) ->
  load_try converts f = Ok (map strip_record (dropna (rows parsed))).
Proof.
  intros Hread Hdt. unfold load_try. rewrite Hread. cbn [bind].
  rewrite Hdt. cbn [strip_column bind]. rewrite strip_columns_all. reflexivity.
Qed.

Lemma parse_lines_to_csv (df : DataFrame) :
  Forall no_na_field df ->
  parse_lines (filter (fun l => negb (is_blank l))
                      (map (fun r => [Name r; Time r; Date r]) df))
  = Ok (map cells_of df).
Proof.
  induction 1 as [|r df (Hn & Ht & Hd) _ IH]; [reflexivity|].
  cbn [map filter is_blank negb parse_lines parse_line].
  rewrite IH. unfold parse_cell. rewrite Hn, Ht, Hd. reflexivity.
Qed.

Lemma read_csv_to_csv (df : DataFrame) :
  Forall no_na_field df ->
  text_columns converts df ->
  read_csv converts (to_csv df) = Ok (mkParsed (object, object, object) (map cells_of df)).
Proof.
  intros Hna (Hn & Ht & Hd). unfold read_csv, to_csv. cbn [skipn].
  rewrite (parse_lines_to_csv df Hna). cbn [bind].
  rewrite !map_map. cbn [cells_of fst snd]. unfold cell in *.
  rewrite Hn, Ht, Hd. reflexivity.
Qed.

End LoadingFacts.

(** C7.  With no [Attendance.csv] on disk, the load returns the empty frame
    and leaves a file made of the one header line Name, Time, Date; nothing
    is raised. *)
Theorem load_creates_missing_file :
  forall converts : list string -> bool,
    load_attendance_csv converts None = ([], Some [["Name"; "Time"; "Date"]]).
Proof.
  intros converts. reflexivity.
Qed.

(** The file so created loads as the empty frame. *)
Lemma load_created_file (converts : list string -> bool) :
  load_attendance_csv converts (snd (load_attendance_csv converts None))
  = ([], Some [CSV_COLUMNS]).
Proof. reflexivity. Qed.

(** C1, as the code has it.  For a file that [read_csv] parses into three
    text columns, the parsed rows are the lines after the header that are
    not blank, and the loaded frame is made of the parsed rows without a
    NaN cell, in file order, each field trimmed at both ends; a token is
    NaN exactly when it is one of [NA_VALUES], the empty token among them,
    and the file is left as it was. *)
Theorem load_drops_nan_rows_and_trims :
  forall (converts : list string -> bool) (f : csv_file) (parsed : parsed_frame),
    read_csv converts f = Ok parsed ->
    dtypes parsed = (object, object, object) ->
    let df := fst (load_attendance_csv converts (Some f)) in
    parse_lines (filter (fun l => negb (is_blank l)) (skipn 1 f)) = Ok (rows parsed)
    /\ (exists kept,
        map cells_of kept = filter (fun r => negb (has_nan r)) (rows parsed)
        /\ df = map strip_record kept)
    /\ Forall trimmed_record df
    /\ (forall tok, parse_cell tok = None <-> In tok NA_VALUES)
    /\ snd (load_attendance_csv converts (Some f)) = Some f.
Proof.
  intros converts f parsed Hread Hdt df.
  split.
  { unfold read_csv in Hread.
    destruct (parse_lines (filter (fun l => negb (is_blank l)) (skipn 1 f))) as [rs|e];
      cbn [bind] in Hread; [|discriminate Hread].
    injection Hread as <-. reflexivity. }
  assert (Hdf : df = map strip_record (dropna (rows parsed))).
  { unfold df, load_attendance_csv.
    rewrite (load_try_text converts f parsed Hread Hdt). reflexivity. }
  split.
  { exists (dropna (rows parsed)). split; [apply dropna_filter|exact Hdf]. }
  split.
  { rewrite Hdf. apply Forall_forall. intros r Hin.
    apply in_map_iff in Hin. destruct Hin as (r0 & <- & _).
    apply strip_record_is_trimmed. }
  split; [exact parse_cell_nan|].
  unfold load_attendance_csv.
  destruct (load_try converts f); reflexivity.
Qed.

Lemma load_drops_nan_rows_and_trims_witness :
  let f := [ CSV_COLUMNS;
             ["Alice"; " 09:15:00 "; "01-January-2024"];
             ["Bob"; EmptyString; "01-January-2024"];
             ["Carol"; "09:20:11"];
             [" Dewi"; "09:21:40"; "01-January-2024 "] ] in
  fst (load_attendance_csv converts_decimal (Some f))
  = [ mkRecord "Alice" "09:15:00" "01-January-2024";
      mkRecord "Dewi" "09:21:40" "01-January-2024" ]
  /\ Forall trimmed_record (fst (load_attendance_csv converts_decimal (Some f))).
Proof.
  intros f.
  destruct (load_drops_nan_rows_and_trims converts_decimal f
              (mkParsed (object, object, object)
                        [ (Some "Alice", Some " 09:15:00 ", Some "01-January-2024");
                          (Some "Bob", None, Some "01-January-2024");
                          (Some "Carol", Some "09:20:11", None);
                          (Some " Dewi", Some "09:21:40", Some "01-January-2024 ") ])
              eq_refl eq_refl) as (_ & _ & Htrim & _).
  split; [reflexivity|exact Htrim].
Defined.

(** Against C1 as stated: a field made of spaces only is not NaN, so its
    row is kept, and the field is empty after trimming.  The loaded frame
    holds a record with a blank field. *)
Lemma load_keeps_blank_field :
  let f := [ CSV_COLUMNS; ["Alice"; "   "; "01-January-2024"] ] in
  let df := fst (load_attendance_csv converts_decimal (Some f)) in
  df = [ mkRecord "Alice" EmptyString "01-January-2024" ]
  /\ exists r, In r df /\ Time r = EmptyString.
Proof.
  split; [reflexivity|].
  exists (mkRecord "Alice" EmptyString "01-January-2024").
  split; [left; reflexivity|reflexivity].
Qed.

(** A column of numbers is not text: the [.str] accessor raises and the
    [except] clause returns the empty frame, although no field is blank. *)
Lemma load_numeric_column_is_empty :
  fst (load_attendance_csv converts_decimal
         (Some [ CSV_COLUMNS; ["1001"; "09:15:00"; "01-January-2024"] ])) = [].
Proof. reflexivity. Qed.

Lemma map_strip_record_fixed (df : DataFrame) :
  Forall trimmed_record df -> map strip_record df = df.
Proof.
  induction 1 as [|r df Hr _ IH]; [reflexivity|].
  cbn [map]. rewrite (strip_record_fixed r Hr), IH. reflexivity.
Qed.

(** C5, as the code has it.  A view whose fields are trimmed, none of them
    one of [NA_VALUES], and whose three columns are read back as text, is
    reproduced by exporting it and loading the exported file. *)
Theorem export_round_trip :
  forall (converts : list string -> bool) (df : DataFrame),
    Forall trimmed_record df ->
    Forall no_na_field df ->
    text_columns converts df ->
    export_then_load converts df = df.
Proof.
  intros converts df Htrim Hna Htext.
  unfold export_then_load, load_attendance_csv.
  rewrite (load_try_text converts (to_csv df) _ (read_csv_to_csv converts df Hna Htext) eq_refl).
  cbn [fst rows]. rewrite dropna_cells_of.
  apply map_strip_record_fixed, Htrim.
Qed.

Lemma export_round_trip_witness :
  let view := [ mkRecord "Alice" "09:15:00" "01-January-2024";
                mkRecord "Bob" "09:17:42" "02-January-2024" ] in
  Forall trimmed_record view
  /\ Forall no_na_field view
  /\ text_columns converts_decimal view
  /\ export_then_load converts_decimal view = view.
Proof.
  intros view.
  assert (Htrim : Forall trimmed_record view) by (repeat constructor).
  assert (Hna : Forall no_na_field view) by (repeat constructor).
  assert (Htext : text_columns converts_decimal view) by (repeat constructor).
  split; [exact Htrim|]. split; [exact Hna|]. split; [exact Htext|].
  exact (export_round_trip converts_decimal view Htrim Hna Htext).
Defined.

(** Against C5 as stated: a loaded view with a blank field does not
    survive the round trip.  The field is written as an empty token, which
    is NaN when read back, and the row is dropped. *)
Lemma export_loses_blank_field :
  let f := [ CSV_COLUMNS; ["Alice"; "   "; "01-January-2024"] ] in
  let view := fst (load_attendance_csv converts_decimal (Some f)) in
  view = [ mkRecord "Alice" EmptyString "01-January-2024" ]
  /\ Forall trimmed_record view
  /\ export_then_load converts_decimal view = []
  /\ export_then_load converts_decimal view <> view.
Proof.
  split; [reflexivity|]. split; [repeat constructor|].
  split; [reflexivity|]. discriminate.
Qed.

(** So does a view with a field that spells an NA marker, which a leading
    space protected on the first load. *)
Lemma export_loses_na_marker :
  let f := [ CSV_COLUMNS; [" NA"; "09:15:00"; "01-January-2024"] ] in
  let view := fst (load_attendance_csv converts_decimal (Some f)) in
  view = [ mkRecord "NA" "09:15:00" "01-January-2024" ]
  /\ export_then_load converts_decimal view = [].
Proof.
  split; reflexivity.
Qed.

(** ** The history filters *)

Lemma select_map_filter (f : AttendanceRecord -> bool) (df : DataFrame) :
  select df (map f df) = filter f df.
Proof.
  induction df as [|r df IH]; [reflexivity|].
  cbn [map select filter]. rewrite IH. reflexivity.
Qed.

Lemma filter_filter_andb {A : Type} (f g : A -> bool) (l : list A) :
  filter g (filter f l) = filter (fun x => f x && g x) l.
Proof.
  induction l as [|x l IH]; [reflexivity|].
  cbn [filter]. destruct (f x); cbn [filter andb]; rewrite IH; reflexivity.
Qed.

Lemma is_prefix_spec (p s : string) :
  PyStr.is_prefix p s = true <-> exists post, s = (p ++ post)%string.
Proof.
  revert s. induction p as [|a p IH]; intros s.
  - split; [intros _; exists s; reflexivity|reflexivity].
  - destruct s as [|b s]; cbn [PyStr.is_prefix].
    + split; [discriminate|]. intros [post H]. discriminate H.
    + rewrite andb_true_iff, Ascii.eqb_eq, IH. split.
      * intros [-> [post ->]]. exists post. reflexivity.
      * intros [post H]. cbn in H. injection H as -> ->.
        split; [reflexivity|]. exists post. reflexivity.
Qed.

Lemma containsb_spec (needle hay : string) :
  PyStr.containsb needle hay = true <-> PyStr.contains needle hay.
Proof.
  unfold PyStr.contains. induction hay as [|c hay IH].
  - cbn [PyStr.containsb]. rewrite orb_false_r, is_prefix_spec. split.
    + intros [post H]. exists EmptyString, post. exact H.
    + intros (pre & post & H). destruct pre; [exists post; exact H|discriminate H].
  - cbn [PyStr.containsb]. rewrite orb_true_iff, is_prefix_spec, IH. split.
    + intros [[post H]|(pre & post & H)].
      * exists EmptyString, post. exact H.
      * exists (String c pre), post. cbn. rewrite H. reflexivity.
    + intros (pre & post & H). destruct pre as [|c' pre].
      * left. exists post. exact H.
      * right. cbn in H. injection H as _ H. exists pre, post. exact H.
Qed.

Lemma dot_is_special (c : ascii) :
  Re.is_special c = false -> Ascii.eqb c "." = false.
Proof.
  intros H. destruct (Ascii.eqb_spec c ".") as [->|]; [discriminate H|reflexivity].
Qed.

Lemma compile_plain (pat : string) :
  plain pat = true -> Re.compile pat = Some (map Re.Lit (list_ascii_of_string pat)).
Proof.
  induction pat as [|c pat IH]; [reflexivity|].
  cbn [plain]. rewrite andb_true_iff, negb_true_iff. intros [Hc Hp].
  cbn [Re.compile list_ascii_of_string map]. rewrite (IH Hp), (dot_is_special c Hc), Hc.
  reflexivity.
Qed.

Lemma match_here_literal (pat s : string) :
  Re.match_here true (map Re.Lit (list_ascii_of_string pat)) s
  = PyStr.is_prefix (PyStr.lower pat) (PyStr.lower s).
Proof.
  revert s. induction pat as [|a pat IH]; intros s; [reflexivity|].
  destruct s as [|b s]; [reflexivity|].
  cbn [list_ascii_of_string map Re.match_here Re.atom_matches PyStr.lower PyStr.is_prefix].
  rewrite IH. reflexivity.
Qed.

Lemma search_literal (pat s : string) :
  Re.search true (map Re.Lit (list_ascii_of_string pat)) s
  = PyStr.containsb (PyStr.lower pat) (PyStr.lower s).
Proof.
  induction s as [|b s IH].
  - cbn [Re.search PyStr.lower PyStr.containsb]. rewrite match_here_literal. reflexivity.
  - cbn [Re.search PyStr.lower PyStr.containsb]. rewrite match_here_literal, IH. reflexivity.
Qed.

Lemma containsb_empty (s : string) : PyStr.containsb EmptyString s = true.
Proof. destruct s; reflexivity. Qed.

(** The two tests the filters apply to a row. *)
Lemma apply_filters_plain (df : DataFrame) (search sel : string) :
  plain search = true ->
  apply_filters df search sel
  = Some (filter (fun r => PyStr.containsb (PyStr.lower search) (PyStr.lower (Name r))
                           && (String.eqb sel ALL_DATES || String.eqb (Date r) sel)) df).
Proof.
  intros Hplain. unfold apply_filters.
  assert (Hname : (if negb (is_empty search)
                   then match str_contains_nocase search df with
                        | Some mask => Some (select df mask)
                        | None => None
                        end
                   else Some df)
                  = Some (filter (fun r => PyStr.containsb (PyStr.lower search)
                                                           (PyStr.lower (Name r))) df)).
  { destruct search as [|c search'] eqn:Hs.
    - cbn [is_empty negb PyStr.lower]. f_equal. symmetry.
      rewrite (filter_ext _ (fun _ => true)) by (intros r; apply containsb_empty).
      induction df as [|r df IH]; [reflexivity|]. cbn [filter]. f_equal. exact IH.
    - cbn [is_empty negb]. unfold str_contains_nocase.
      rewrite (compile_plain _ Hplain), select_map_filter. f_equal.
      apply filter_ext. intros r. apply search_literal. }
  rewrite Hname. rewrite <- filter_filter_andb.
  destruct (String.eqb sel ALL_DATES) eqn:Hsel; cbn [negb orb].
  - f_equal. symmetry. set (l := filter _ df). clearbody l.
    induction l as [|r l IH]; [reflexivity|]. cbn [filter]. f_equal. exact IH.
  - rewrite select_map_filter. reflexivity.
Qed.

(** Where the filters do what a substring search does.  For a search string
    without regular-expression
    operators and any choice of the date box, the filtered view is made of
    the rows, in order, whose name contains the search string ignoring case
    and whose date is the chosen one; the choice [Semua] puts no condition
    on the date, and the empty search string none on the name. *)
Theorem history_filters :
  forall (df : DataFrame) (search sel : string),
    plain search = true ->
    exists out,
      apply_filters df search sel = Some out
      /\ out = filter (fun r => PyStr.containsb (PyStr.lower search) (PyStr.lower (Name r))
                                && (String.eqb sel ALL_DATES || String.eqb (Date r) sel)) df
      /\ forall r, In r out <->
                   In r df /\ name_contains search r /\ (sel = ALL_DATES \/ Date r = sel).
Proof.
  intros df search sel Hplain. eexists. split; [apply apply_filters_plain, Hplain|].
  split; [reflexivity|]. intros r.
  rewrite filter_In, andb_true_iff, orb_true_iff, containsb_spec, !String.eqb_eq.
  unfold name_contains. tauto.
Qed.

Lemma history_filters_witness :
  let df := [ mkRecord "Alice" "09:15:00" "01-January-2024";
              mkRecord "Bob" "09:17:42" "01-January-2024";
              mkRecord "ALICIA" "09:20:03" "02-January-2024" ] in
  plain "ali" = true
  /\ apply_filters df "ali" ALL_DATES
     = Some [ mkRecord "Alice" "09:15:00" "01-January-2024";
              mkRecord "ALICIA" "09:20:03" "02-January-2024" ]
  /\ apply_filters df "ali" "02-January-2024"
     = Some [ mkRecord "ALICIA" "09:20:03" "02-January-2024" ]
  /\ apply_filters df EmptyString "01-January-2024"
     = Some [ mkRecord "Alice" "09:15:00" "01-January-2024";
              mkRecord "Bob" "09:17:42" "01-January-2024" ].
Proof.
  intros df.
  assert (Hplain : plain "ali" = true) by reflexivity.
  split; [exact Hplain|].
  destruct (history_filters df "ali" ALL_DATES Hplain) as (out1 & H1 & -> & _).
  destruct (history_filters df "ali" "02-January-2024" Hplain) as (out2 & H2 & -> & _).
  destruct (history_filters df EmptyString "01-January-2024" eq_refl) as (out3 & H3 & -> & _).
  split; [exact H1|]. split; [exact H2|exact H3].
Defined.

(** C3.  Line 217 hands the text of the search box to [str.contains] as a
    regular expression, not as a substring.  Searching for a dot keeps
    Alice: the dot finds every name that has a character, although the name
    contains no dot. *)
Lemma search_dot_matches_any_name :
  let alice := mkRecord "Alice" "09:15:00" "01-January-2024" in
  apply_filters [alice] "." ALL_DATES = Some [alice]
  /\ ~ name_contains "." alice.
Proof.
  split; [reflexivity|].
  unfold name_contains. rewrite <- containsb_spec. discriminate.
Qed.

(** A date spelled like the choice for all dates cannot be selected: the
    box offers it, and choosing it keeps the rows of every date. *)
Lemma date_spelled_semua_keeps_all :
  let df := [ mkRecord "Alice" "09:15:00" "Semua";
              mkRecord "Bob" "09:17:42" "01-January-2024" ] in
  date_choices df = ["Semua"; "Semua"; "01-January-2024"]
  /\ apply_filters df EmptyString "Semua" = Some df.
Proof.
  split; reflexivity.
Qed.

(** ** The ranking *)

Lemma count_of_bump (name k : string) (acc : list (string * nat)) :
  count_of k (bump name acc)
  = (if String.eqb name k then 1 else 0) + count_of k acc.
Proof.
  unfold count_of. induction acc as [|[k' n] acc IH]; cbn [bump find fst snd].
  - destruct (String.eqb name k); reflexivity.
  - destruct (String.eqb_spec k' name) as [->|Hne]; cbn [find fst snd].
    + destruct (String.eqb name k); reflexivity.
    + destruct (String.eqb_spec k' k) as [->|Hk].
      * destruct (String.eqb_spec name k) as [->|_]; [contradiction|reflexivity].
      * exact IH.
Qed.

Lemma count_of_fold (names : list string) :
  forall (k : string) (acc : list (string * nat)),
    count_of k (fold_left (fun a name => bump name a) names acc)
    = occurrences k names + count_of k acc.
Proof.
  unfold occurrences.
  induction names as [|name names IH]; intros k acc; [reflexivity|].
  cbn [fold_left filter]. rewrite IH, count_of_bump.
  rewrite (String.eqb_sym k name).
  destruct (String.eqb name k); cbn [List.length]; lia.
Qed.

(** The tally holds, for every name, the number of rows that carry it. *)
Lemma tally_counts (names : list string) (k : string) :
  count_of k (tally names) = occurrences k names.
Proof.
  unfold tally. rewrite count_of_fold. cbn. lia.
Qed.

Lemma in_firstn {A : Type} (n : nat) (l : list A) (x : A) :
  In x (firstn n l) -> In x l.
Proof.
  intros H. rewrite <- (firstn_skipn n l). apply in_or_app. left. exact H.
Qed.

Lemma firstn_descending (n : nat) (l : list (string * nat)) :
  descending l -> descending (firstn n l).
Proof.
  unfold descending. intros H. revert n.
  induction H as [|a l Hl IH Ha]; intros [|n]; cbn [firstn]; try constructor.
  - apply IH.
  - apply Forall_forall. intros b Hb.
    apply (proj1 (Forall_forall _ _) Ha). apply (in_firstn _ _ _ Hb).
Qed.

(** X22.  Whatever sort orders the counts, the ranking shows at most five
    entries of the tally (so the index into the five medals is in range),
    counts never increasing, and no entry left out has a larger count than
    an entry shown. *)
Lemma top_students_descending (sort : list (string * nat) -> list (string * nat))
      (df : DataFrame) :
  sorts_descending sort ->
  List.length (top_students sort df) <= 5
  /\ descending (top_students sort df)
  /\ (forall e, In e (top_students sort df) -> In e (tally (map Name df)))
  /\ (forall shown rest,
        value_counts sort (map Name df) = top_students sort df ++ rest ->
        In shown (top_students sort df) ->
        Forall (fun e => snd e <= snd shown) rest).
Proof.
  intros Hsort. destruct (Hsort (tally (map Name df))) as [Hperm Hdesc].
  unfold top_students, value_counts in *. split.
  { rewrite length_firstn. lia. }
  split; [apply firstn_descending, Hdesc|]. split.
  { intros e He. apply (Permutation_in _ Hperm). apply (in_firstn _ _ _ He). }
  intros shown rest Hsplit Hin.
  unfold descending in Hdesc. rewrite Hsplit in Hdesc.
  clear Hsplit Hperm. revert Hin Hdesc.
  induction (firstn 5 (sort (tally (map Name df)))) as [|a l IH]; intros Hin Hdesc.
  - destruct Hin.
  - cbn [app] in Hdesc. inversion Hdesc as [|a' l' Hl Ha]; subst.
    destruct Hin as [->|Hin].
    + apply Forall_app in Ha. apply Ha.
    + apply IH; assumption.
Qed.

Lemma insert_before_ties_perm (x : string * nat) (l : list (string * nat)) :
  Permutation (insert_before_ties x l) (x :: l).
Proof.
  induction l as [|y l IH]; cbn [insert_before_ties]; [apply Permutation_refl|].
  destruct (snd y <=? snd x); [apply Permutation_refl|].
  apply perm_trans with (y :: x :: l); [apply perm_skip, IH|apply perm_swap].
Qed.

Lemma insert_after_ties_perm (x : string * nat) (l : list (string * nat)) :
  Permutation (insert_after_ties x l) (x :: l).
Proof.
  induction l as [|y l IH]; cbn [insert_after_ties]; [apply Permutation_refl|].
  destruct (snd y <? snd x); [apply Permutation_refl|].
  apply perm_trans with (y :: x :: l); [apply perm_skip, IH|apply perm_swap].
Qed.

Lemma insert_before_ties_descending (x : string * nat) (l : list (string * nat)) :
  descending l -> descending (insert_before_ties x l).
Proof.
  unfold descending. induction 1 as [|y l Hl IH Hy]; cbn [insert_before_ties].
  - repeat constructor.
  - destruct (Nat.leb_spec (snd y) (snd x)) as [Hle|Hgt].
    + constructor; [constructor; assumption|].
      constructor; [exact Hle|].
      eapply Forall_impl; [|exact Hy]. cbn. intros b Hb. lia.
    + constructor; [exact IH|].
      apply Forall_forall. intros b Hb.
      apply (Permutation_in _ (insert_before_ties_perm x l)) in Hb.
      destruct Hb as [<-|Hb]; [lia|].
      apply (proj1 (Forall_forall _ _) Hy b Hb).
Qed.

Lemma insert_after_ties_descending (x : string * nat) (l : list (string * nat)) :
  descending l -> descending (insert_after_ties x l).
Proof.
  unfold descending. induction 1 as [|y l Hl IH Hy]; cbn [insert_after_ties].
  - repeat constructor.
  - destruct (Nat.ltb_spec (snd y) (snd x)) as [Hlt|Hge].
    + constructor; [constructor; assumption|].
      constructor; [lia|].
      eapply Forall_impl; [|exact Hy]. cbn. intros b Hb. lia.
    + constructor; [exact IH|].
      apply Forall_forall. intros b Hb.
      apply (Permutation_in _ (insert_after_ties_perm x l)) in Hb.
      destruct Hb as [<-|Hb]; [lia|].
      apply (proj1 (Forall_forall _ _) Hy b Hb).
Qed.

Lemma stable_sort_sorts : sorts_descending stable_sort_desc.
Proof.
  intros l. unfold stable_sort_desc.
  induction l as [|x l [Hp Hd]]; cbn [fold_right].
  - split; [apply Permutation_refl|constructor].
  - split.
    + apply perm_trans with (x :: fold_right insert_before_ties [] l);
        [apply insert_before_ties_perm|apply perm_skip, Hp].
    + apply insert_before_ties_descending, Hd.
Qed.

Lemma reversing_sort_sorts : sorts_descending reversing_sort_desc.
Proof.
  intros l. unfold reversing_sort_desc.
  induction l as [|x l [Hp Hd]]; cbn [fold_right].
  - split; [apply Permutation_refl|constructor].
  - split.
    + apply perm_trans with (x :: fold_right insert_after_ties [] l);
        [apply insert_after_ties_perm|apply perm_skip, Hp].
    + apply insert_after_ties_descending, Hd.
Qed.

(** The order of two names with equal counts is the sort's: of two sorts by
    decreasing count, one shows A before B and the other B before A, for
    the rows A, B, A, B, A, B, C. *)
Lemma tie_order_follows_the_sort :
  let row := fun name => mkRecord name "09:15:00" "01-January-2024" in
  let df := map row ["A"; "B"; "A"; "B"; "A"; "B"; "C"] in
  tally (map Name df) = [("A", 3); ("B", 3); ("C", 1)]
  /\ top_students stable_sort_desc df = [("A", 3); ("B", 3); ("C", 1)]
  /\ top_students reversing_sort_desc df = [("B", 3); ("A", 3); ("C", 1)].
Proof.
  repeat split; reflexivity.
Qed.

(** * Further properties of the script *)

(** ** Trimming and loading *)

Lemma lstrip_split (s : string) :
  exists pre, s = (pre ++ PyStr.lstrip s)%string /\ all_space pre = true.
Proof.
  induction s as [|c s (pre & Hs & Hpre)].
  - exists EmptyString. split; reflexivity.
  - cbn [PyStr.lstrip]. destruct (PyStr.is_space c) eqn:Hc.
    + exists (String c pre). split.
      * cbn. rewrite <- Hs. reflexivity.
      * cbn. rewrite Hc, Hpre. reflexivity.
    + exists EmptyString. split; reflexivity.
Qed.

Lemma rstrip_split (s : string) :
  exists post, s = (PyStr.rstrip s ++ post)%string /\ all_space post = true.
Proof.
  induction s as [|c s (post & Hs & Hpost)].
  - exists EmptyString. split; reflexivity.
  - cbn [PyStr.rstrip]. destruct (PyStr.rstrip s) as [|d r] eqn:Hr.
    + cbn in Hs. subst post. destruct (PyStr.is_space c) eqn:Hc.
      * exists (String c s). split; [reflexivity|]. cbn. rewrite Hc, Hpost. reflexivity.
      * exists s. split; [reflexivity|exact Hpost].
    + exists post. split; [|exact Hpost]. cbn. cbn in Hs. rewrite <- Hs. reflexivity.
Qed.

Lemma string_app_assoc (a b c : string) :
  ((a ++ b) ++ c = a ++ b ++ c)%string.
Proof.
  induction a as [|x a IH]; cbn; [reflexivity|]. rewrite IH. reflexivity.
Qed.

(** X1.  [strip] takes away whitespace at the two ends and nothing else:
    the string is the stripped string between a run of whitespace and
    another, the stripped string has no whitespace at either end, and
    stripping it again changes nothing. *)
Theorem strip_removes_outer_whitespace :
  forall s : string,
    (exists pre post,
        s = (pre ++ PyStr.strip s ++ post)%string
        /\ all_space pre = true /\ all_space post = true)
    /\ PyStr.trimmed (PyStr.strip s)
    /\ PyStr.strip (PyStr.strip s) = PyStr.strip s.
Proof.
  intros s. split.
  - destruct (rstrip_split s) as (post & Hs & Hpost).
    destruct (lstrip_split (PyStr.rstrip s)) as (pre & Hr & Hpre).
    exists pre, post. split; [|split; assumption].
    unfold PyStr.strip. rewrite <- string_app_assoc, <- Hr. exact Hs.
  - split; [apply strip_is_trimmed|]. apply strip_fixed, strip_is_trimmed.
Qed.

Lemma load_try_outcome (converts : list string -> bool) (f : csv_file) :
  (exists e, load_try converts f = Raise e)
  \/ (exists parsed,
         read_csv converts f = Ok parsed
         /\ dtypes parsed = (object, object, object)
         /\ load_try converts f = Ok (map strip_record (dropna (rows parsed)))).
Proof.
  destruct (read_csv converts f) as [parsed|e] eqn:Hread.
  - destruct (dtypes parsed) as [[dn dt] dd] eqn:Hdt.
    destruct dn, dt, dd;
      try (left; exists AttributeError; unfold load_try; rewrite Hread; cbn [bind];
           rewrite Hdt; reflexivity).
    right. exists parsed. split; [reflexivity|]. split; [exact Hdt|].
    apply load_try_text; assumption.
  - left. exists e. unfold load_try. rewrite Hread. reflexivity.
Qed.

(** X2.  Whatever is on disk, every field of every record of the loaded
    frame is free of whitespace at both ends. *)
Theorem loaded_frame_is_trimmed :
  forall (converts : list string -> bool) (disk : option csv_file),
    Forall trimmed_record (fst (load_attendance_csv converts disk)).
Proof.
  intros converts [f|]; [|constructor].
  unfold load_attendance_csv.
  destruct (load_try_outcome converts f) as [(e & ->)|(parsed & _ & _ & ->)];
    [constructor|].
  apply Forall_forall. intros r Hin. apply in_map_iff in Hin.
  destruct Hin as (r0 & <- & _). apply strip_record_is_trimmed.
Qed.

(** X3.  A load leaves a file on disk, never changes a file that was
    there, and loading again gives the same frame and the same file. *)
Theorem load_settles_the_disk :
  forall (converts : list string -> bool) (disk : option csv_file),
    load_attendance_csv converts (snd (load_attendance_csv converts disk))
    = load_attendance_csv converts disk
    /\ snd (load_attendance_csv converts disk) <> None
    /\ (forall f, snd (load_attendance_csv converts (Some f)) = Some f).
Proof.
  intros converts disk.
  assert (Hkeep : forall f, snd (load_attendance_csv converts (Some f)) = Some f).
  { intros f. unfold load_attendance_csv. destruct (load_try converts f); reflexivity. }
  split; [|split; [|exact Hkeep]].
  - destruct disk as [f|]; [|reflexivity].
    rewrite Hkeep. reflexivity.
  - destruct disk as [f|]; [rewrite Hkeep|]; discriminate.
Qed.

(** X4.  When [read_csv] converts one of the three columns to numbers or
    booleans, or reads it as all NaN, the [.str] accessor raises and the
    load returns the empty frame, whatever the rows hold. *)
Theorem converted_column_empties_the_load :
  forall (converts : list string -> bool) (f : csv_file) (parsed : parsed_frame),
    read_csv converts f = Ok parsed ->
    dtypes parsed <> (object, object, object) ->
    load_attendance_csv converts (Some f) = ([], Some f).
Proof.
  intros converts f parsed Hread Hdt. unfold load_attendance_csv, load_try.
  rewrite Hread. cbn [bind].
  destruct (dtypes parsed) as [[dn dt] dd].
  destruct dn, dt, dd; try reflexivity. contradiction Hdt. reflexivity.
Qed.

Lemma converted_column_empties_the_load_witness :
  let f := [ CSV_COLUMNS;
             ["Alice"; "0915"; "01-January-2024"];
             ["Bob"; "0917"; "01-January-2024"] ] in
  load_attendance_csv converts_decimal (Some f) = ([], Some f).
Proof.
  intros f.
  apply (converted_column_empties_the_load converts_decimal f
           (mkParsed (object, converted, object)
                     [ (Some "Alice", Some "0915", Some "01-January-2024");
                       (Some "Bob", Some "0917", Some "01-January-2024") ])).
  - reflexivity.
  - discriminate.
Defined.

Lemma parse_lines_length (ls : list csv_line) (rs : list (cell * cell * cell)) :
  parse_lines ls = Ok rs -> List.length rs = List.length ls.
Proof.
  revert rs. induction ls as [|l ls IH]; intros rs H.
  - injection H as <-. reflexivity.
  - cbn [parse_lines] in H. destruct (parse_line l) as [r|e]; [|discriminate H].
    cbn [bind] in H. destruct (parse_lines ls) as [rs'|e]; [|discriminate H].
    cbn [bind] in H. injection H as <-. cbn. f_equal. apply IH. reflexivity.
Qed.

Lemma dropna_length (rs : list (cell * cell * cell)) :
  List.length (dropna rs) <= List.length rs.
Proof.
  unfold dropna.
  induction rs as [|[[[n|] [t|]] [d|]] rs IH]; cbn in *; lia.
Qed.

Lemma filter_length_le {A : Type} (p : A -> bool) (l : list A) :
  List.length (filter p l) <= List.length l.
Proof.
  induction l as [|x l IH]; cbn; [lia|]. destruct (p x); cbn; lia.
Qed.

(** X6.  The loaded frame has at most one record per line after the
    header line. *)
Theorem load_at_most_one_record_per_line :
  forall (converts : list string -> bool) (f : csv_file),
    List.length (fst (load_attendance_csv converts (Some f))) <= List.length f - 1.
Proof.
  intros converts f. unfold load_attendance_csv.
  destruct (load_try_outcome converts f) as [(e & ->)|(parsed & Hread & _ & ->)];
    [cbn; lia|].
  cbn [fst]. rewrite length_map.
  unfold read_csv in Hread.
  destruct (parse_lines (filter (fun l => negb (is_blank l)) (skipn 1 f))) as [rs|e] eqn:Hp;
    cbn [bind] in Hread; [|discriminate Hread].
  injection Hread as <-. cbn [rows].
  pose proof (dropna_length rs) as H1.
  pose proof (parse_lines_length _ _ Hp) as H2.
  pose proof (filter_length_le (fun l => negb (is_blank l)) (skipn 1 f)) as H3.
  rewrite length_skipn in H3. lia.
Qed.

Lemma parse_lines_export (df : DataFrame) :
  parse_lines (filter (fun l => negb (is_blank l))
                      (map (fun r => [Name r; Time r; Date r]) df))
  = Ok (map (fun r => (parse_cell (Name r), parse_cell (Time r), parse_cell (Date r))) df).
Proof.
  induction df as [|r df IH]; [reflexivity|].
  cbn [map filter is_blank negb parse_lines parse_line bind]. rewrite IH. reflexivity.
Qed.

Lemma dropna_export (df : DataFrame) :
  dropna (map (fun r => (parse_cell (Name r), parse_cell (Time r), parse_cell (Date r))) df)
  = filter (fun r => negb (has_na_field r)) df.
Proof.
  induction df as [|[n t d] df IH]; [reflexivity|].
  cbn [map dropna flat_map filter]. fold (dropna
    (map (fun r => (parse_cell (Name r), parse_cell (Time r), parse_cell (Date r))) df)).
  rewrite IH. unfold has_na_field, parse_cell. cbn [Name Time Date].
  destruct (is_na n), (is_na t), (is_na d); reflexivity.
Qed.

(** X5.  Exporting a trimmed view and loading the export never alters or
    invents a record: what comes back is either nothing, or exactly the
    records of the view that have no NA marker in any field, in order. *)
Theorem export_then_load_is_a_selection :
  forall (converts : list string -> bool) (df : DataFrame),
    Forall trimmed_record df ->
    export_then_load converts df = []
    \/ export_then_load converts df = filter (fun r => negb (has_na_field r)) df.
Proof.
  intros converts df Htrim. unfold export_then_load, load_attendance_csv.
  destruct (load_try_outcome converts (to_csv df)) as [(e & ->)|(parsed & Hread & _ & ->)];
    [left; reflexivity|].
  right. cbn [fst].
  unfold read_csv, to_csv in Hread. cbn [skipn] in Hread.
  rewrite parse_lines_export in Hread. cbn [bind] in Hread.
  injection Hread as <-. cbn [rows]. rewrite dropna_export.
  apply map_strip_record_fixed.
  apply Forall_forall. intros r Hr. apply filter_In in Hr.
  apply (proj1 (Forall_forall _ _) Htrim r), Hr.
Qed.

Lemma export_then_load_is_a_selection_witness :
  let view := [ mkRecord "Alice" "09:15:00" "01-January-2024";
                mkRecord "NA" "09:17:42" "01-January-2024" ] in
  Forall trimmed_record view
  /\ export_then_load converts_decimal view
     = [ mkRecord "Alice" "09:15:00" "01-January-2024" ].
Proof.
  intros view.
  assert (Htrim : Forall trimmed_record view) by (repeat constructor).
  split; [exact Htrim|].
  destruct (export_then_load_is_a_selection converts_decimal view Htrim) as [H|H].
  - discriminate H.
  - exact H.
Defined.

(** ** The summary metrics, the recent table and the bar chart *)

Lemma unique_in (l : list string) (x : string) : In x (unique l) <-> In x l.
Proof.
  induction l as [|y l IH]; [reflexivity|].
  cbn [unique In]. rewrite filter_In, IH, negb_true_iff, String.eqb_neq.
  destruct (String.eqb_spec y x) as [->|Hne].
  - split; [intros _|intros _]; left; reflexivity.
  - split.
    + intros [H|[H _]]; [left; exact H|right; exact H].
    + intros [H|H]; [left; exact H|right; split; [exact H|congruence]].
Qed.

Lemma unique_nodup (l : list string) : NoDup (unique l).
Proof.
  induction l as [|y l IH]; cbn [unique]; constructor.
  - rewrite filter_In, negb_true_iff, String.eqb_neq. intros [_ H]. apply H. reflexivity.
  - apply NoDup_filter, IH.
Qed.

Lemma unique_length (l : list string) : List.length (unique l) <= List.length l.
Proof.
  induction l as [|y l IH]; cbn [unique List.length]; [lia|].
  pose proof (filter_length_le (fun z => negb (String.eqb z y)) (unique l)). lia.
Qed.

(** X7.  The student metric counts every name of the frame once: the names
    it counts are distinct and are exactly the names of the records, so the
    metric never exceeds the number of records and is 0 only for the empty
    frame. *)
Theorem total_students_counts_distinct_names :
  forall df : DataFrame,
    NoDup (unique (map Name df))
    /\ (forall n, In n (unique (map Name df)) <-> exists r, In r df /\ Name r = n)
    /\ total_students df = List.length (unique (map Name df))
    /\ total_students df <= total_records df
    /\ (total_students df = 0 <-> df = []).
Proof.
  intros df. split; [apply unique_nodup|]. split.
  { intros n. rewrite unique_in, in_map_iff.
    split; intros (r & H1 & H2); exists r; split; assumption. }
  assert (Hts : total_students df = List.length (unique (map Name df))).
  { unfold total_students. destruct df; reflexivity. }
  split; [exact Hts|]. split.
  { rewrite Hts. unfold total_records.
    pose proof (unique_length (map Name df)) as H. rewrite length_map in H. exact H. }
  rewrite Hts. destruct df as [|r df]; cbn; split; intros H; try reflexivity; discriminate.
Qed.

(** X8.  The recent table shows the last ten records of the frame, newest
    first: it is the first ten of the frame read backwards, and has ten
    rows or, for a shorter frame, all of them. *)
Theorem latest_df_newest_first :
  forall df : DataFrame,
    latest_df df = firstn 10 (rev df)
    /\ List.length (latest_df df) = Nat.min 10 (List.length df).
Proof.
  intros df.
  assert (H : latest_df df = firstn 10 (rev df)).
  { unfold latest_df, iloc_reversed, tail. symmetry. apply firstn_rev. }
  split; [exact H|]. rewrite H, length_firstn, length_rev. reflexivity.
Qed.

Lemma string_length_app (a b : string) :
  String.length (a ++ b) = String.length a + String.length b.
Proof.
  induction a as [|c a IH]; cbn; [reflexivity|]. rewrite IH. reflexivity.
Qed.

Lemma zeros_length (n : nat) : String.length (zeros n) = n.
Proof.
  induction n as [|n IH]; cbn; [reflexivity|]. rewrite IH. reflexivity.
Qed.

Lemma zero_pad_length (width n : nat) : width <= String.length (zero_pad width n).
Proof.
  unfold zero_pad. rewrite string_length_app, zeros_length. lia.
Qed.

Lemma today_is_not_all_dates (now : datetime) :
  String.eqb (strftime_d_B_Y now) ALL_DATES = false.
Proof.
  apply String.eqb_neq. intros H.
  apply (f_equal String.length) in H. unfold strftime_d_B_Y in H.
  rewrite !string_length_app in H.
  pose proof (zero_pad_length 2 (day now)) as Hd.
  pose proof (zero_pad_length 4 (year now)) as Hy.
  remember (zero_pad 2 (day now)) as d.
  remember (zero_pad 4 (year now)) as y.
  remember (nth (month now - 1) MONTH_NAMES EmptyString) as m.
  cbn in H. lia.
Qed.

(** X9.  The metric of today's attendance is the number of rows the
    history tab shows when today's date is chosen with an empty search, and
    never exceeds the number of records. *)
Theorem present_today_agrees_with_history :
  forall (df : DataFrame) (now : datetime),
    apply_filters df EmptyString (strftime_d_B_Y now)
    = Some (filter (fun r => String.eqb (Date r) (strftime_d_B_Y now)) df)
    /\ present_today df now
       = List.length (filter (fun r => String.eqb (Date r) (strftime_d_B_Y now)) df)
    /\ present_today df now <= total_records df.
Proof.
  intros df now.
  assert (Hp : present_today df now
               = List.length (filter (fun r => String.eqb (Date r) (strftime_d_B_Y now)) df)).
  { unfold present_today. destruct df as [|r df]; [reflexivity|].
    cbn [List.length Nat.ltb Nat.leb]. rewrite select_map_filter. reflexivity. }
  split.
  - unfold apply_filters. cbn [is_empty negb].
    rewrite today_is_not_all_dates. cbn [negb].
    rewrite select_map_filter. reflexivity.
  - split; [exact Hp|]. rewrite Hp. apply filter_length_le.
Qed.

Lemma keys_bump (name : string) (acc : list (string * nat)) :
  map fst (bump name acc)
  = if existsb (String.eqb name) (map fst acc) then map fst acc
    else map fst acc ++ [name].
Proof.
  induction acc as [|[k n] acc IH]; cbn [bump map fst existsb app]; [reflexivity|].
  rewrite (String.eqb_sym name k).
  destruct (String.eqb k name) eqn:Hk; cbn [map fst orb]; [reflexivity|].
  rewrite IH. destruct (existsb (String.eqb name) (map fst acc)); reflexivity.
Qed.

Lemma keys_fold (names : list string) :
  forall acc : list (string * nat),
    map fst (fold_left (fun a name => bump name a) names acc)
    = map fst acc
      ++ filter (fun x => negb (existsb (String.eqb x) (map fst acc))) (unique names).
Proof.
  induction names as [|x names IH]; intros acc.
  - cbn. rewrite app_nil_r. reflexivity.
  - cbn [fold_left unique filter]. rewrite IH, keys_bump.
    destruct (existsb (String.eqb x) (map fst acc)) eqn:Hx; cbn [negb].
    + f_equal. rewrite filter_filter_andb. apply filter_ext_in. intros y _.
      destruct (String.eqb_spec y x) as [->|Hne]; cbn [negb andb].
      * rewrite Hx. reflexivity.
      * reflexivity.
    + rewrite <- app_assoc. cbn [app]. f_equal. f_equal.
      rewrite filter_filter_andb. apply filter_ext. intros y.
      rewrite existsb_app. cbn [existsb].
      rewrite orb_false_r, negb_orb, andb_comm. reflexivity.
Qed.

Lemma sum_bump (name : string) (acc : list (string * nat)) :
  list_sum (map snd (bump name acc)) = S (list_sum (map snd acc)).
Proof.
  induction acc as [|[k n] acc IH]; cbn [bump map snd list_sum fold_right]; [reflexivity|].
  destruct (String.eqb k name); cbn [map snd list_sum fold_right].
  - reflexivity.
  - unfold list_sum in IH. rewrite IH. lia.
Qed.

Lemma sum_fold (names : list string) :
  forall acc : list (string * nat),
    list_sum (map snd (fold_left (fun a name => bump name a) names acc))
    = List.length names + list_sum (map snd acc).
Proof.
  induction names as [|x names IH]; intros acc; [reflexivity|].
  cbn [fold_left List.length]. rewrite IH, sum_bump. lia.
Qed.

(** ** The live tab *)

Lemma render_card_showable (d : list (string * json)) :
  showable (JDict d) ->
  render_card (JDict d)
  = Ok (mkCard (match dict_get "name" d with
                | Some (JStr s) => upper s
                | _ => "UNKNOWN"
                end)
               (match dict_get "time" d with Some v => v | None => JStr "N/A" end)
               (match dict_get "date" d with Some v => v | None => JStr "N/A" end)).
Proof.
  unfold showable, render_card. cbn [py_get bind].
  destruct (dict_get "name" d) as [[| | | |s| |]|]; intros H; try contradiction; reflexivity.
Qed.

Lemma render_card_unshowable (msg : json) :
  ~ showable msg -> render_card msg = Raise AttributeError.
Proof.
  unfold showable, render_card. intros H.
  destruct msg as [| | | | | |d]; try reflexivity.
  cbn [py_get bind].
  destruct (dict_get "name" d) as [[| | | |s| |]|]; try reflexivity; contradiction H; exact I.
Qed.

Lemma render_cards_showable (msgs : list json) :
  Forall showable msgs ->
  exists cs, render_cards msgs = Ok cs
             /\ Forall2 (fun m c => render_card m = Ok c) msgs cs.
Proof.
  induction 1 as [|m msgs Hm _ (cs & Hcs & Hall)].
  - exists []. split; [reflexivity|constructor].
  - destruct m as [| | | | | |d]; try contradiction.
    pose proof (render_card_showable d Hm) as Hc.
    eexists. split.
    + cbn [render_cards]. rewrite Hc, Hcs. reflexivity.
    + constructor; [exact Hc|exact Hall].
Qed.

(** X11.  While connected, a buffer of mappings whose names are strings or
    absent is shown whole: the live tab does not raise and gives one card
    per buffered event, newest first, with the name in capitals (UNKNOWN
    when absent) and N/A for a missing time or date. *)
Theorem live_tab_shows_every_event :
  forall st : session_state,
    mqtt_connected st = true ->
    mqtt_messages st <> [] ->
    Forall showable (mqtt_messages st) ->
    (exists cs,
        live_tab st = Ok (Cards cs)
        /\ Forall2 (fun m c => render_card m = Ok c) (mqtt_messages st) cs)
    /\ (forall d, showable (JDict d) ->
          render_card (JDict d)
          = Ok (mkCard (match dict_get "name" d with
                        | Some (JStr s) => upper s
                        | _ => "UNKNOWN"
                        end)
                       (match dict_get "time" d with Some v => v | None => JStr "N/A" end)
                       (match dict_get "date" d with Some v => v | None => JStr "N/A" end))).
Proof.
  intros st Hconn Hne Hshow. split; [|exact render_card_showable].
  destruct (render_cards_showable _ Hshow) as (cs & Hcs & Hall).
  exists cs. split; [|exact Hall].
  unfold live_tab. rewrite Hconn.
  destruct (mqtt_messages st) as [|m msgs] eqn:Hm; [contradiction Hne; reflexivity|].
  cbn [List.length Nat.ltb Nat.leb]. unfold Deque.snapshot. rewrite Hcs. reflexivity.
Qed.

Lemma live_tab_shows_every_event_witness :
  let ev := JDict [("name", JStr "dewi"); ("time", JStr "09:21:40")] in
  let st := mkSession true [ev; JDict []] new_year None in
  live_tab st
  = Ok (Cards [ mkCard "DEWI" (JStr "09:21:40") (JStr "N/A");
                mkCard "UNKNOWN" (JStr "N/A") (JStr "N/A") ]).
Proof.
  intros ev st.
  assert (Hshow : Forall showable (mqtt_messages st)) by (repeat constructor).
  destruct (live_tab_shows_every_event st eq_refl ltac:(discriminate) Hshow)
    as ((cs & Hcs & _) & _).
  reflexivity.
Defined.

Section LiveFacts.

Variable decode : list Byte.byte -> result string.
Variable json_loads : string -> result json.

Lemma step_keeps_buffer (w : World) (ev : event) :
  is_publish ev = false ->
  mqtt_messages (session (step decode json_loads w ev)) = mqtt_messages (session w)
  /\ last_update (session (step decode json_loads w ev)) = last_update (session w).
Proof.
  intros Hev. destruct ev as [env|rc|rc|msg now]; [| | |discriminate Hev]; cbn [step].
  - unfold setup_mqtt. destruct (mqtt_client (session w)) as [c|]; [split; reflexivity|].
    destruct (setup_try_cases env w) as [(_ & w' & e & Heq & Hs & _)|(_ & c & Heq)];
      rewrite Heq; cbn; [rewrite Hs|]; split; reflexivity.
  - destruct (mqtt_client (session w)) as [c|]; [|split; reflexivity].
    unfold on_connect. destruct (rc =? 0)%Z; split; reflexivity.
  - destruct (mqtt_client (session w)) as [c|]; split; reflexivity.
Qed.

End LiveFacts.

(** X13.  Only an arriving message changes the buffer and the time of the
    last update: a render, a connect callback and a disconnect callback
    leave both as they were. *)
Theorem only_messages_change_the_buffer :
  forall (decode : list Byte.byte -> result string) (json_loads : string -> result json)
         (w : World) (ev : event),
    is_publish ev = false ->
    mqtt_messages (session (step decode json_loads w ev)) = mqtt_messages (session w)
    /\ last_update (session (step decode json_loads w ev)) = last_update (session w).
Proof.
  intros decode json_loads w ev. apply step_keeps_buffer.
Qed.

Lemma only_messages_change_the_buffer_witness :
  let c := loop_start (connect MQTT_BROKER MQTT_PORT 60%Z
                         (install_callbacks (new_client MQTT_CLIENT_ID true))) in
  let w := mkWorld (mkSession true [JDict []] new_year (Some c)) 1 1 1 [] in
  mqtt_messages (session (step seven_bit_decode small_json_loads w (ConnectionLost 7%Z)))
  = [JDict []].
Proof.
  intros c w.
  exact (proj1 (only_messages_change_the_buffer seven_bit_decode small_json_loads
                  w (ConnectionLost 7%Z) eq_refl)).
Defined.

(** X14.  The live tab of the running dashboard never leaves the offline
    notice: in every state reached from the initial one, whatever the
    broker sends and however often the page is rendered, the flag [main]
    reads is false, the buffer it reads is empty, and the tab neither
    raises nor shows a card. *)
Theorem live_tab_stays_offline :
  forall (decode : list Byte.byte -> result string) (json_loads : string -> result json)
         (evs : list event) (now : datetime),
    let st := session (run decode json_loads evs (initial_world now)) in
    live_tab st = Ok Offline
    /\ mqtt_connected st = false
    /\ mqtt_messages st = [].
Proof.
  intros decode json_loads evs now st.
  destruct (run_keeps_session_idle decode json_loads evs (initial_world now))
    as [Hf Hb]; [split; reflexivity|].
  fold st in Hf, Hb. split; [|split; assumption].
  unfold live_tab. rewrite Hf. reflexivity.
Qed.

(** ** The stored client and the bookkeeping of [setup_mqtt] *)

Section ClientFacts.

Variable decode : list Byte.byte -> result string.
Variable json_loads : string -> result json.

Lemma step_configured (w : World) (ev : event) :
  (forall c, mqtt_client (session w) = Some c -> configured c) ->
  forall c, mqtt_client (session (step decode json_loads w ev)) = Some c -> configured c.
Proof.
  intros Hinv c'.
  destruct ev as [env|rc|rc|msg now]; [| | |rewrite step_publish; apply Hinv]; cbn [step].
  - unfold setup_mqtt. destruct (mqtt_client (session w)) as [c|] eqn:Hc.
    + rewrite Hc. apply Hinv.
    + destruct (setup_try_cases env w) as [(_ & w' & e & Heq & Hs & _)|(_ & c & Heq)].
      * rewrite Heq. cbn. rewrite Hs, Hc. discriminate.
      * unfold setup_try in *. destruct (constructor_raises env); [discriminate Heq|].
        destruct (connect_raises env); [discriminate Heq|].
        destruct (loop_start_raises env); [discriminate Heq|].
        cbn. intros H. injection H as <-. repeat split. constructor.
  - destruct (mqtt_client (session w)) as [c|] eqn:Hc; [|rewrite Hc; discriminate].
    destruct (Hinv c eq_refl) as (H1 & H2 & H3 & H4 & H5 & H6).
    unfold on_connect. destruct (rc =? 0)%Z; cbn; intros H; injection H as <-.
    + repeat split; try assumption. cbn. apply Forall_app. split; [exact H6|].
      constructor; [reflexivity|constructor].
    + repeat split; assumption.
  - destruct (mqtt_client (session w)) as [c|] eqn:Hc; [|rewrite Hc; discriminate].
    cbn. intros H. injection H as <-. apply Hinv. reflexivity.
Qed.

Lemma run_configured (evs : list event) :
  forall w : World,
    (forall c, mqtt_client (session w) = Some c -> configured c) ->
    forall c, mqtt_client (session (run decode json_loads evs w)) = Some c -> configured c.
Proof.
  induction evs as [|ev evs IH]; intros w Hinv; [exact Hinv|].
  apply (IH (step decode json_loads w ev)), step_configured, Hinv.
Qed.

Lemma step_accounts (w : World) (ev : event) :
  let w' := step decode json_loads w ev in
  connect_calls w' + clients_created w <= connect_calls w + clients_created w'
  /\ clients_created w' + (List.length (ui_errors w) + loops_started w)
     <= clients_created w + (List.length (ui_errors w') + loops_started w')
  /\ List.length (ui_errors w') + loops_started w'
     <= List.length (ui_errors w) + loops_started w + (if is_render ev then 1 else 0).
Proof.
  destruct ev as [env|rc|rc|msg now]; cbn [step is_render].
  - unfold setup_mqtt. destruct (mqtt_client (session w)) as [c|]; [cbn; lia|].
    unfold setup_try.
    destruct (constructor_raises env); [cbn; rewrite ?length_app; cbn; lia|].
    destruct (connect_raises env); [cbn; rewrite ?length_app; cbn; lia|].
    destruct (loop_start_raises env); cbn; rewrite ?length_app; cbn; lia.
  - destruct (mqtt_client (session w)) as [c|]; [|cbn; lia].
    unfold on_connect. destruct (rc =? 0)%Z; cbn; lia.
  - destruct (mqtt_client (session w)) as [c|]; cbn; lia.
  - destruct (mqtt_client (session w)) as [c|]; cbn; lia.
Qed.

Lemma run_accounts (evs : list event) :
  forall w : World,
    let w' := run decode json_loads evs w in
    connect_calls w' + clients_created w <= connect_calls w + clients_created w'
    /\ clients_created w' + (List.length (ui_errors w) + loops_started w)
       <= clients_created w + (List.length (ui_errors w') + loops_started w')
    /\ List.length (ui_errors w') + loops_started w'
       <= List.length (ui_errors w) + loops_started w
          + List.length (filter is_render evs).
Proof.
  induction evs as [|ev evs IH]; intros w; [cbn; lia|].
  pose proof (step_accounts w ev) as Hs.
  pose proof (IH (step decode json_loads w ev)) as Hr.
  change (run decode json_loads (ev :: evs) w)
    with (run decode json_loads evs (step decode json_loads w ev)).
  cbn zeta in *. cbn [filter].
  destruct (is_render ev); cbn [List.length]; lia.
Qed.

End ClientFacts.

(** X15.  The client a running dashboard holds is always the one
    [setup_mqtt] builds: fixed client id, clean session, callbacks
    installed, connected to the fixed broker and port with keepalive 60,
    network loop running; and it is never subscribed to anything but the
    fixed topic. *)
Theorem stored_client_is_configured :
  forall (decode : list Byte.byte -> result string) (json_loads : string -> result json)
         (evs : list event) (now : datetime) (c : Client),
    mqtt_client (session (run decode json_loads evs (initial_world now))) = Some c ->
    client_id c = "streamlit_dashboard"
    /\ clean_session c = true
    /\ callbacks_installed c = true
    /\ remote c = Some ("broker.hivemq.com", 1883%Z, 60%Z)
    /\ loop_running c = true
    /\ Forall (fun t => t = "attendance/student") (subscriptions c).
Proof.
  intros decode json_loads evs now c Hc.
  apply (run_configured decode json_loads evs (initial_world now)); [|exact Hc].
  intros c0 H0. discriminate H0.
Qed.

Lemma stored_client_is_configured_witness :
  let evs := [ Render (mkEnv None (Some OSError) None); Render all_succeed;
               ConnAck 0%Z; ConnectionLost 1%Z; ConnAck 0%Z ] in
  exists c,
    mqtt_client (session (run seven_bit_decode small_json_loads evs (initial_world new_year)))
    = Some c
    /\ subscriptions c = [MQTT_TOPIC; MQTT_TOPIC]
    /\ remote c = Some (MQTT_BROKER, MQTT_PORT, 60%Z).
Proof.
  intros evs. eexists. split; [reflexivity|]. split; [reflexivity|].
  exact (proj1 (proj2 (proj2 (proj2
    (stored_client_is_configured seven_bit_decode small_json_loads evs new_year _ eq_refl))))).
Defined.

(** X16.  Over any run from the initial state, [connect] is called at most
    once per constructed client, a client is constructed only by a setup
    that ends in an error notice or in a started network loop, and there is
    at most one such setup per render: error notices and started loops
    together never outnumber the renders. *)
Theorem setup_attempts_are_accounted :
  forall (decode : list Byte.byte -> result string) (json_loads : string -> result json)
         (evs : list event) (now : datetime),
    let w := run decode json_loads evs (initial_world now) in
    connect_calls w <= clients_created w
    /\ clients_created w <= List.length (ui_errors w) + loops_started w
    /\ List.length (ui_errors w) + loops_started w <= List.length (filter is_render evs).
Proof.
  intros decode json_loads evs now w.
  pose proof (run_accounts decode json_loads evs (initial_world now)) as H.
  cbn zeta in H. fold w in H. cbn in H. lia.
Qed.

(** ** The stamp of [on_message] *)

Lemma dict_get_set (k key : string) (v : json) (d : list (string * json)) :
  dict_get k (dict_set key v d)
  = if String.eqb key k then Some v else dict_get k d.
Proof.
  induction d as [|[k0 w] d IH]; cbn [dict_set dict_get].
  - destruct (String.eqb key k); reflexivity.
  - destruct (String.eqb_spec k0 key) as [->|Hne]; cbn [dict_get].
    + destruct (String.eqb key k); reflexivity.
    + rewrite IH. destruct (String.eqb_spec k0 k) as [->|Hk]; [|reflexivity].
      destruct (String.eqb_spec key k) as [->|_]; [contradiction|reflexivity].
Qed.

Lemma dict_has_get (key : string) (d : list (string * json)) :
  dict_has key d = match dict_get key d with Some _ => true | None => false end.
Proof.
  unfold dict_has. induction d as [|[k0 w] d IH]; cbn [existsb dict_get fst]; [reflexivity|].
  destruct (String.eqb k0 key); [reflexivity|exact IH].
Qed.

(** X17.  The event pushed for a mapping keeps every key of the payload
    with its value.  A [received_at] sent by the device is kept as it is;
    only when the key is missing is it set, to the time of receipt written
    as year-month-day hour:minute:second. *)
Theorem stamp_keeps_the_payload :
  forall (decode : list Byte.byte -> result string) (json_loads : string -> result json)
         (msg : MQTTMessage) (now : datetime) (d : list (string * json)),
    decodes_to decode json_loads msg d ->
    exists d',
      received_event decode json_loads msg now = Ok (JDict d')
      /\ (forall k, k <> "received_at" -> dict_get k d' = dict_get k d)
      /\ dict_get "received_at" d'
         = Some (match dict_get "received_at" d with
                 | Some v => v
                 | None => JStr (strftime_ymd_hms now)
                 end).
Proof.
  intros decode json_loads msg now d Hd.
  rewrite (received_event_mapping decode json_loads msg now d Hd).
  unfold stamped. rewrite dict_has_get.
  destruct (dict_get "received_at" d) as [v|] eqn:Hget.
  - exists d. split; [reflexivity|]. split; [reflexivity|exact Hget].
  - eexists. split; [reflexivity|]. split.
    + intros k Hk. rewrite dict_get_set.
      destruct (String.eqb_spec "received_at" k) as [<-|_]; [contradiction Hk|]; reflexivity.
    + rewrite dict_get_set. reflexivity.
Qed.

Lemma stamp_keeps_the_payload_witness :
  let msg := mkMessage MQTT_TOPIC [Byte.x7b; Byte.x7d] in
  decodes_to seven_bit_decode small_json_loads msg []
  /\ received_event seven_bit_decode small_json_loads msg new_year
     = Ok (JDict [("received_at", JStr "2024-01-01 09:30:00")]).
Proof.
  intros msg.
  assert (Hd : decodes_to seven_bit_decode small_json_loads msg []).
  { exists "{}". split; reflexivity. }
  split; [exact Hd|].
  destruct (stamp_keeps_the_payload seven_bit_decode small_json_loads msg new_year [] Hd)
    as (d' & Hev & _).
  reflexivity.
Defined.

(** ** More on the history filters *)

Lemma filter_true {A : Type} (l : list A) : filter (fun _ => true) l = l.
Proof.
  induction l as [|x l IH]; [reflexivity|]. cbn [filter]. f_equal. exact IH.
Qed.

Lemma apply_filters_compiled (df : DataFrame) (search sel : string) (p : list Re.atom) :
  Re.compile search = Some p ->
  apply_filters df search sel
  = Some (filter (fun r => (is_empty search || Re.search true p (Name r))
                           && (String.eqb sel ALL_DATES || String.eqb (Date r) sel)) df).
Proof.
  intros Hp. unfold apply_filters, str_contains_nocase. rewrite Hp.
  rewrite <- filter_filter_andb.
  assert (Hname : (if negb (is_empty search)
                   then Some (select df (map (fun r => Re.search true p (Name r)) df))
                   else Some df)
                  = Some (filter (fun r => is_empty search || Re.search true p (Name r)) df)).
  { destruct (is_empty search); cbn [negb orb].
    - rewrite filter_true. reflexivity.
    - rewrite select_map_filter. reflexivity. }
  rewrite Hname.
  destruct (String.eqb sel ALL_DATES); cbn [negb orb].
  - rewrite filter_true. reflexivity.
  - rewrite select_map_filter. reflexivity.
Qed.

Lemma apply_filters_some (df : DataFrame) (search sel : string) (out : DataFrame) :
  apply_filters df search sel = Some out -> exists p, Re.compile search = Some p.
Proof.
  unfold apply_filters, str_contains_nocase.
  destruct (Re.compile search) as [p|] eqn:Hc; [intros _; exists p; reflexivity|].
  destruct search as [|c search']; [discriminate Hc|].
  cbn [is_empty negb]. discriminate.
Qed.

(** X18.  For a search string made of ordinary characters and dots, and
    whatever date is chosen, the filters produce a view that is a selection
    of the frame: its records are records of the frame, in the order of the
    frame, none altered and none repeated more often than in the frame. *)
Theorem filtered_view_is_a_selection :
  forall (df : DataFrame) (search sel : string) (p : list Re.atom),
    Re.compile search = Some p ->
    exists out,
      apply_filters df search sel = Some out
      /\ (exists keep, out = filter keep df)
      /\ (forall r, In r out -> In r df)
      /\ List.length out <= List.length df.
Proof.
  intros df search sel p Hp.
  eexists. split; [apply (apply_filters_compiled df search sel p Hp)|].
  split; [eexists; reflexivity|]. split.
  - intros r Hr. apply filter_In in Hr. apply Hr.
  - apply filter_length_le.
Qed.

Lemma filtered_view_is_a_selection_witness :
  let df := [ mkRecord "Alice" "09:15:00" "01-January-2024";
              mkRecord "Bob" "09:17:42" "01-January-2024";
              mkRecord "Dani" "09:20:03" "02-January-2024" ] in
  Re.compile "a.i" = Some [Re.Lit "a"; Re.AnyChar; Re.Lit "i"]
  /\ apply_filters df "a.i" ALL_DATES
     = Some [ mkRecord "Alice" "09:15:00" "01-January-2024";
              mkRecord "Dani" "09:20:03" "02-January-2024" ].
Proof.
  intros df.
  assert (Hp : Re.compile "a.i" = Some [Re.Lit "a"; Re.AnyChar; Re.Lit "i"]) by reflexivity.
  split; [exact Hp|].
  destruct (filtered_view_is_a_selection df "a.i" ALL_DATES _ Hp) as (out & Hout & _).
  rewrite Hout. apply f_equal.
  assert (H : apply_filters df "a.i" ALL_DATES
              = Some [ mkRecord "Alice" "09:15:00" "01-January-2024";
                       mkRecord "Dani" "09:20:03" "02-January-2024" ]) by reflexivity.
  rewrite Hout in H. injection H as H. exact H.
Defined.

(** X19.  The date box offers every date of the frame once, and every date
    it offers other than [Semua] selects, with an empty search, a view that
    is not empty and holds exactly the records of that date. *)
Theorem date_choices_select_records :
  forall df : DataFrame,
    NoDup (List.tl (date_choices df))
    /\ (forall r, In r df -> In (Date r) (date_choices df))
    /\ (forall d, In d (date_choices df) -> d <> ALL_DATES ->
          exists out,
            apply_filters df EmptyString d = Some out
            /\ out <> []
            /\ (forall r, In r out <-> In r df /\ Date r = d)).
Proof.
  intros df. unfold date_choices. cbn [List.tl].
  split; [apply unique_nodup|]. split.
  { intros r Hr. right. apply unique_in, in_map, Hr. }
  intros d [Hd|Hd] Hne; [symmetry in Hd; contradiction|].
  apply unique_in, in_map_iff in Hd. destruct Hd as (r0 & Hr0 & Hin0).
  rewrite (apply_filters_compiled df EmptyString d [] eq_refl).
  eexists. split; [reflexivity|].
  assert (Hin : forall r,
             In r (filter (fun r => (is_empty EmptyString || Re.search true [] (Name r))
                                    && (String.eqb d ALL_DATES || String.eqb (Date r) d)) df)
             <-> In r df /\ Date r = d).
  { intros r. rewrite filter_In. cbn [is_empty orb andb].
    apply String.eqb_neq in Hne. rewrite Hne. cbn [orb]. rewrite String.eqb_eq.
    reflexivity. }
  split; [|exact Hin].
  intros Hnil. assert (H : In r0 []) by (rewrite <- Hnil; apply Hin; split; assumption).
  destruct H.
Qed.

Lemma date_choices_select_records_witness :
  let df := [ mkRecord "Alice" "09:15:00" "01-January-2024";
              mkRecord "Bob" "09:17:42" "02-January-2024";
              mkRecord "Dani" "09:20:03" "01-January-2024" ] in
  date_choices df = ["Semua"; "01-January-2024"; "02-January-2024"]
  /\ exists out, apply_filters df EmptyString "02-January-2024" = Some out /\ out <> [].
Proof.
  intros df. split; [reflexivity|].
  destruct (proj2 (proj2 (date_choices_select_records df)) "02-January-2024")
    as (out & Hout & Hne & _).
  - right. right. left. reflexivity.
  - discriminate.
  - exists out. split; assumption.
Defined.

(** X20.  For a search string made of ordinary characters and dots, the
    two filters can be applied one after the other in either order:
    filtering by name and then filtering the result by date, or by date and
    then by name, gives the view that both filters give at once. *)
Theorem filters_compose_in_either_order :
  forall (df : DataFrame) (search sel : string) (p : list Re.atom),
    Re.compile search = Some p ->
    exists by_name by_date out,
      apply_filters df search ALL_DATES = Some by_name
      /\ apply_filters df EmptyString sel = Some by_date
      /\ apply_filters df search sel = Some out
      /\ apply_filters by_name EmptyString sel = Some out
      /\ apply_filters by_date search ALL_DATES = Some out.
Proof.
  intros df search sel p Hp.
  do 3 eexists.
  split; [apply (apply_filters_compiled df search ALL_DATES p Hp)|].
  split; [apply (apply_filters_compiled df EmptyString sel [] eq_refl)|].
  split; [apply (apply_filters_compiled df search sel p Hp)|].
  split.
  - rewrite (apply_filters_compiled _ EmptyString sel [] eq_refl).
    rewrite filter_filter_andb. apply f_equal. apply filter_ext. intros r.
    cbn [is_empty orb andb]. rewrite String.eqb_refl. cbn [orb].
    rewrite andb_true_r. reflexivity.
  - rewrite (apply_filters_compiled _ search ALL_DATES p Hp).
    rewrite filter_filter_andb. apply f_equal. apply filter_ext. intros r.
    cbn [is_empty orb andb]. rewrite String.eqb_refl. cbn [orb].
    rewrite andb_true_r. apply andb_comm.
Qed.

Lemma filters_compose_in_either_order_witness :
  let df := [ mkRecord "Alice" "09:15:00" "01-January-2024";
              mkRecord "Bob" "09:17:42" "02-January-2024";
              mkRecord "Dani" "09:20:03" "02-January-2024" ] in
  exists by_date,
    apply_filters df EmptyString "02-January-2024" = Some by_date
    /\ apply_filters by_date "a.i" ALL_DATES
       = Some [ mkRecord "Dani" "09:20:03" "02-January-2024" ].
Proof.
  intros df.
  destruct (filters_compose_in_either_order df "a.i" "02-January-2024"
              [Re.Lit "a"; Re.AnyChar; Re.Lit "i"] eq_refl)
    as (by_name & by_date & out & _ & Hd & Ho & _ & Hdn).
  exists by_date. split; [exact Hd|]. rewrite Hdn, <- Ho. reflexivity.
Defined.

(** ** The trend by date *)

Lemma string_leb_trans (s1 s2 s3 : string) :
  String.leb s1 s2 = true -> String.leb s2 s3 = true -> String.leb s1 s3 = true.
Proof.
  unfold String.leb. revert s2 s3.
  induction s1 as [|a s1 IH]; intros [|b s2] [|c s3]; cbn [String.compare];
    try reflexivity; try discriminate.
  unfold Ascii.compare.
  destruct (N.compare_spec (N_of_ascii a) (N_of_ascii b)) as [Hab|Hab|Hab];
    destruct (N.compare_spec (N_of_ascii b) (N_of_ascii c)) as [Hbc|Hbc|Hbc];
    try discriminate; intros H1 H2.
  - rewrite Hab, Hbc, N.compare_refl. apply (IH s2 s3); assumption.
  - rewrite Hab. rewrite (proj2 (N.compare_lt_iff _ _) Hbc). reflexivity.
  - rewrite <- Hbc. rewrite (proj2 (N.compare_lt_iff _ _) Hab). reflexivity.
  - rewrite (proj2 (N.compare_lt_iff _ _) (N.lt_trans _ _ _ Hab Hbc)). reflexivity.
Qed.

Lemma insert_by_date_perm (x : string * nat) (l : list (string * nat)) :
  Permutation (insert_by_date x l) (x :: l).
Proof.
  induction l as [|y l IH]; cbn [insert_by_date]; [apply Permutation_refl|].
  destruct (String.leb (fst x) (fst y)); [apply Permutation_refl|].
  apply perm_trans with (y :: x :: l); [apply perm_skip, IH|apply perm_swap].
Qed.

Lemma insert_by_date_ascending (x : string * nat) (l : list (string * nat)) :
  ascending_dates l -> ascending_dates (insert_by_date x l).
Proof.
  unfold ascending_dates. induction 1 as [|y l Hl IH Hy]; cbn [insert_by_date].
  - repeat constructor.
  - destruct (String.leb (fst x) (fst y)) eqn:Hxy.
    + constructor; [constructor; assumption|].
      constructor; [exact Hxy|].
      eapply Forall_impl; [|exact Hy]. cbn. intros b Hb.
      apply (string_leb_trans _ _ _ Hxy Hb).
    + constructor; [exact IH|].
      apply Forall_forall. intros b Hb.
      apply (Permutation_in _ (insert_by_date_perm x l)) in Hb.
      destruct Hb as [<-|Hb].
      * destruct (String.leb_total (fst x) (fst y)) as [H|H]; [congruence|exact H].
      * apply (proj1 (Forall_forall _ _) Hy b Hb).
Qed.

Lemma sort_by_date_sorts : sorts_by_date sort_by_date.
Proof.
  intros l. unfold sort_by_date.
  induction l as [|x l [Hp Hd]]; cbn [fold_right].
  - split; [apply Permutation_refl|constructor].
  - split.
    + apply perm_trans with (x :: fold_right insert_by_date [] l);
        [apply insert_by_date_perm|apply perm_skip, Hp].
    + apply insert_by_date_ascending, Hd.
Qed.

Lemma ascending_perm_unique (l1 : list (string * nat)) :
  forall l2 : list (string * nat),
    NoDup (map fst l1) ->
    Permutation l1 l2 ->
    ascending_dates l1 -> ascending_dates l2 ->
    l1 = l2.
Proof.
  unfold ascending_dates.
  induction l1 as [|a l1 IH]; intros l2 Hnd Hperm H1 H2.
  - apply Permutation_nil in Hperm. symmetry. exact Hperm.
  - destruct l2 as [|b l2].
    { apply Permutation_sym, Permutation_nil in Hperm. discriminate Hperm. }
    inversion H1 as [|a' l1' Hs1 Ha]; subst.
    inversion H2 as [|b' l2' Hs2 Hb]; subst.
    inversion Hnd as [|k ks Hnotin Hnd']; subst.
    assert (Hab : a = b).
    { assert (Hina : In a (b :: l2)) by (apply (Permutation_in _ Hperm); left; reflexivity).
      assert (Hinb : In b (a :: l1))
        by (apply (Permutation_in _ (Permutation_sym Hperm)); left; reflexivity).
      destruct Hina as [Heq|Hina]; [symmetry; exact Heq|].
      destruct Hinb as [Heq|Hinb]; [exact Heq|].
      exfalso. apply Hnotin.
      assert (Hk : fst a = fst b).
      { apply String.leb_antisym.
        - apply (proj1 (Forall_forall _ _) Ha b Hinb).
        - apply (proj1 (Forall_forall _ _) Hb a Hina). }
      rewrite Hk. apply in_map, Hinb. }
    subst b. f_equal.
    apply IH; [exact Hnd'| |assumption|assumption].
    apply (Permutation_cons_inv Hperm).
Qed.

Lemma tally_keys (names : list string) : map fst (tally names) = unique names.
Proof.
  unfold tally. rewrite keys_fold. cbn [map app existsb negb]. apply filter_true.
Qed.

(** X21.  The trend by date lists every distinct date of the frame once,
    with its number of records, dates in increasing order of [str]; since
    no date occurs twice, the list is the same whatever sorts the library
    uses inside [value_counts] and [sort_values]. *)
Theorem attendance_by_date_is_determined :
  forall (by_count by_count' by_date by_date' : list (string * nat) -> list (string * nat))
         (df : DataFrame),
    permutes by_count -> permutes by_count' ->
    sorts_by_date by_date -> sorts_by_date by_date' ->
    attendance_by_date by_count by_date df = attendance_by_date by_count' by_date' df
    /\ Permutation (attendance_by_date by_count by_date df) (tally (map Date df))
    /\ ascending_dates (attendance_by_date by_count by_date df)
    /\ NoDup (map fst (attendance_by_date by_count by_date df)).
Proof.
  intros by_count by_count' by_date by_date' df Hc Hc' Hd Hd'.
  unfold attendance_by_date, value_counts.
  set (t := tally (map Date df)).
  assert (Hp : forall c d, permutes c -> sorts_by_date d -> Permutation (d (c t)) t).
  { intros c d Hpc Hsd. apply perm_trans with (c t); [apply Hsd|apply Hpc]. }
  assert (Hnd : NoDup (map fst (by_date (by_count t)))).
  { apply (Permutation_NoDup (l := map fst t)).
    - apply Permutation_map, Permutation_sym, Hp; assumption.
    - unfold t. rewrite tally_keys. apply unique_nodup. }
  split; [|split; [apply Hp; assumption|split; [apply Hd|exact Hnd]]].
  apply ascending_perm_unique.
  - exact Hnd.
  - apply perm_trans with t; [apply Hp; assumption|].
    apply Permutation_sym, Hp; assumption.
  - apply Hd.
  - apply Hd'.
Qed.

Lemma attendance_by_date_is_determined_witness :
  let row := fun date => mkRecord "Alice" "09:15:00" date in
  let df := map row ["02-January-2024"; "01-January-2024"; "02-January-2024";
                     "15-December-2023"] in
  attendance_by_date stable_sort_desc sort_by_date df
  = [("01-January-2024", 1); ("02-January-2024", 2); ("15-December-2023", 1)]
  /\ attendance_by_date reversing_sort_desc sort_by_date df
     = attendance_by_date stable_sort_desc sort_by_date df.
Proof.
  intros row df. split; [reflexivity|].
  exact (proj1 (attendance_by_date_is_determined
                  reversing_sort_desc stable_sort_desc sort_by_date sort_by_date df
                  (fun l => proj1 (reversing_sort_sorts l))
                  (fun l => proj1 (stable_sort_sorts l))
                  sort_by_date_sorts sort_by_date_sorts)).
Defined.

(** The ranking, as far as the sort does not matter. *)
Lemma top_students_descending_witness :
  let row := fun name => mkRecord name "09:15:00" "01-January-2024" in
  let df := map row ["A"; "B"; "A"; "C"; "D"; "E"; "F"; "A"; "B"] in
  sorts_descending stable_sort_desc
  /\ top_students stable_sort_desc df
     = [("A", 3); ("B", 2); ("C", 1); ("D", 1); ("E", 1)]
  /\ List.length (top_students stable_sort_desc df) <= 5.
Proof.
  intros row df. split; [exact stable_sort_sorts|]. split; [reflexivity|].
  exact (proj1 (top_students_descending stable_sort_desc df stable_sort_sorts)).
Defined.

(** ** The chart by student *)

Lemma count_of_in (k : string) (n : nat) (l : list (string * nat)) :
  NoDup (map fst l) -> In (k, n) l -> count_of k l = n.
Proof.
  unfold count_of. induction l as [|[k0 n0] l IH]; intros Hnd Hin; [destruct Hin|].
  cbn [map fst] in Hnd. inversion Hnd as [|x xs Hnotin Hnd']; subst.
  cbn [find fst snd]. destruct Hin as [Heq|Hin].
  - injection Heq as -> ->. rewrite String.eqb_refl. reflexivity.
  - destruct (String.eqb_spec k0 k) as [->|Hne].
    + exfalso. apply Hnotin. apply (in_map fst _ _ Hin).
    + apply IH; assumption.
Qed.

Lemma count_of_absent (k : string) (l : list (string * nat)) :
  ~ In k (map fst l) -> count_of k l = 0.
Proof.
  unfold count_of. induction l as [|[k0 n0] l IH]; intros Hnot; [reflexivity|].
  cbn [find fst snd]. destruct (String.eqb_spec k0 k) as [->|Hne].
  - exfalso. apply Hnot. left. reflexivity.
  - apply IH. intros H. apply Hnot. right. exact H.
Qed.

Lemma count_of_perm (k : string) (l l' : list (string * nat)) :
  NoDup (map fst l) -> Permutation l l' -> count_of k l = count_of k l'.
Proof.
  intros Hnd Hperm.
  assert (Hnd' : NoDup (map fst l')).
  { apply (Permutation_NoDup (l := map fst l)); [apply Permutation_map, Hperm|exact Hnd]. }
  destruct (in_dec string_dec k (map fst l)) as [Hin|Hnot].
  - apply in_map_iff in Hin. destruct Hin as ([k0 n] & Hk & Hin). cbn in Hk. subst k0.
    rewrite (count_of_in k n l Hnd Hin).
    symmetry. apply count_of_in; [exact Hnd'|]. apply (Permutation_in _ Hperm Hin).
  - rewrite (count_of_absent k l Hnot). symmetry. apply count_of_absent.
    intros H. apply Hnot.
    apply (Permutation_in _ (Permutation_sym (Permutation_map fst Hperm)) H).
Qed.

Lemma list_sum_perm (l l' : list nat) : Permutation l l' -> list_sum l = list_sum l'.
Proof.
  induction 1 as [|x l l' _ IH|x y l|l l' l'' _ IH1 _ IH2]; cbn [list_sum fold_right] in *.
  - reflexivity.
  - unfold list_sum in IH. rewrite IH. reflexivity.
  - lia.
  - congruence.
Qed.

(** X10.  The table behind the bar chart has one entry per distinct
    student, the students of highest count first; the count of an entry is
    the number of records of that student, and the counts add up to the
    number of records.  This holds whatever sort by decreasing count
    [value_counts] uses. *)
Theorem attendance_count_is_the_histogram :
  forall (sort : list (string * nat) -> list (string * nat)) (df : DataFrame),
    sorts_descending sort ->
    NoDup (map fst (attendance_count sort df))
    /\ Permutation (map fst (attendance_count sort df)) (unique (map Name df))
    /\ (forall name, count_of name (attendance_count sort df)
                     = occurrences name (map Name df))
    /\ list_sum (map snd (attendance_count sort df)) = total_records df
    /\ descending (attendance_count sort df).
Proof.
  intros sort df Hsort. unfold attendance_count, value_counts.
  destruct (Hsort (tally (map Name df))) as [Hperm Hdesc].
  assert (Hkeys : Permutation (map fst (sort (tally (map Name df))))
                              (unique (map Name df))).
  { rewrite <- tally_keys. apply Permutation_map, Hperm. }
  assert (Hnd : NoDup (map fst (tally (map Name df)))).
  { rewrite tally_keys. apply unique_nodup. }
  split.
  { apply (Permutation_NoDup (l := unique (map Name df)));
      [apply Permutation_sym, Hkeys|apply unique_nodup]. }
  split; [exact Hkeys|]. split.
  { intros name. rewrite <- tally_counts. symmetry.
    apply count_of_perm; [exact Hnd|apply Permutation_sym, Hperm]. }
  split; [|exact Hdesc].
  rewrite (list_sum_perm _ _ (Permutation_map snd Hperm)).
  unfold tally, total_records. rewrite sum_fold, length_map. cbn. lia.
Qed.

Lemma attendance_count_is_the_histogram_witness :
  let row := fun name => mkRecord name "09:15:00" "01-January-2024" in
  let df := map row ["C"; "A"; "A"] in
  sorts_descending stable_sort_desc
  /\ attendance_count stable_sort_desc df = [("A", 2); ("C", 1)]
  /\ list_sum (map snd (attendance_count stable_sort_desc df)) = 3.
Proof.
  intros row df. split; [exact stable_sort_sorts|]. split; [reflexivity|].
  exact (proj1 (proj2 (proj2 (proj2
    (attendance_count_is_the_histogram stable_sort_desc df stable_sort_sorts))))).
Defined.
